(** * Solar assistant: the completion client of [solar_assistant.py]

    A shallow embedding of the [SolarAssistant] class: its constructor, the
    request it composes, and the mapping from the upstream reply (or the
    exception raised while obtaining it) to the string shown to the user.

    Python values are dynamically typed, so the embedding carries a type
    [pyval] of the values [json.loads] can produce, and every primitive the
    source applies to such a value ([in], subscripting, [len], [.get],
    f-string formatting) is defined on all of them, raising where Python
    raises.  Exceptions, the log and the outgoing request are explicit:
    computations run in a trace-and-exception monad.  The libraries the
    source calls ([logging], [asyncio], [httpx], [gradio]) are part of the
    environment of a run: what they return, raise and log is given by a
    [world]. *)

From Stdlib Require Import Floats.
From stdpp Require Import gmap strings list fin_maps pretty.

Set Warnings "-register-all,-inexact-float".
Open Scope string_scope.

(** ** Python values *)

(** What [response.json()] can return, and what the request body is built
    from.  A Python [str] is a sequence of characters; the program never
    inspects individual characters beyond comparing them with its own ASCII
    literals, so a character is an [ascii] here. *)
Inductive pyval : Type :=
  | PNone
  | PBool (b : bool)
  | PInt (z : Z)
  | PFloat (f : float)
  | PStr (s : string)
  | PList (l : list pyval)
  | PDict (d : gmap string pyval).

(** Exceptions the interpreter raises by itself on the operations used by the
    source.  Their texts differ between interpreter versions, so [str(e)] for
    them is left to the environment (see [world]). *)
Inductive builtin_error : Type :=
  | NotIterable (v : pyval)            (* TypeError:  'k' in 5          *)
  | BadIndexType (v : pyval) (k : pyval) (* TypeError:  [1]['k'], 'ab'['k'] *)
  | NotSubscriptable (v : pyval)       (* TypeError:  None['k'], 5[0]   *)
  | NoLen (v : pyval)                  (* TypeError:  len(5)            *)
  | KeyError (k : pyval)               (* KeyError:   {}['k'], {}[0]    *)
  | IndexError (v : pyval)             (* IndexError: [][0], ''[0]      *)
  | AttributeError (v : pyval) (attr : string). (* AttributeError: 'x'.get *)

(** An instance of [Exception]: one raised by the interpreter, or one raised
    with an explicit description by the program or by a library ([httpx],
    [json], [logging]).  Signals outside [Exception] ([KeyboardInterrupt],
    [SystemExit], task cancellation) are not modelled. *)
Inductive exn : Type :=
  | Builtin (b : builtin_error)
  | Raised (class : string) (description : string).

Definition ValueError (msg : string) : exn := Raised "ValueError" msg.

(** ** Exceptions without effects *)

Inductive res (A : Type) : Type :=
  | Return (a : A)
  | Raise (e : exn).
Arguments Return {A} a.
Arguments Raise {A} e.

#[global] Instance res_ret : MRet res := fun A a => Return a.
#[global] Instance res_bind : MBind res := fun A B f m =>
  match m with
  | Return a => f a
  | Raise e => Raise e
  end.

(** [a and b]: [b] is evaluated only when [a] is true. *)
Definition py_and (a b : res bool) : res bool :=
  x ← a; if x : bool then b else mret false.

Module Py.

(** [needle in haystack] on two strings: substring test. *)
Fixpoint substring_of (needle haystack : string) : bool :=
  String.prefix needle haystack ||
  match haystack with
  | EmptyString => false
  | String _ rest => substring_of needle rest
  end.

(** [x == k] for a string [k]: only an equal string compares equal. *)
Definition eq_str (k : string) (x : pyval) : bool :=
  match x with
  | PStr s => bool_decide (s = k)
  | _ => false
  end.

(** [k in v] for a string literal [k]. *)
Definition contains (k : string) (v : pyval) : res bool :=
  match v with
  | PDict d => Return (bool_decide (is_Some (d !! k)))
  | PList l => Return (existsb (eq_str k) l)
  | PStr s => Return (substring_of k s)
  | PNone | PBool _ | PInt _ | PFloat _ => Raise (Builtin (NotIterable v))
  end.

(** [v[k]] for a string literal [k]. *)
Definition getitem (v : pyval) (k : string) : res pyval :=
  match v with
  | PDict d =>
      match d !! k with
      | Some x => Return x
      | None => Raise (Builtin (KeyError (PStr k)))
      end
  | PList _ | PStr _ => Raise (Builtin (BadIndexType v (PStr k)))
  | PNone | PBool _ | PInt _ | PFloat _ => Raise (Builtin (NotSubscriptable v))
  end.

(** [v[0]].  A dictionary parsed from JSON has string keys only, so the
    integer key is never found. *)
Definition getitem0 (v : pyval) : res pyval :=
  match v with
  | PList (x :: _) => Return x
  | PStr (String c _) => Return (PStr (String c EmptyString))
  | PList [] | PStr EmptyString => Raise (Builtin (IndexError v))
  | PDict _ => Raise (Builtin (KeyError (PInt 0)))
  | PNone | PBool _ | PInt _ | PFloat _ => Raise (Builtin (NotSubscriptable v))
  end.

(** [len(v)]. *)
Definition len (v : pyval) : res nat :=
  match v with
  | PList l => Return (length l)
  | PStr s => Return (String.length s)
  | PDict d => Return (size d)
  | PNone | PBool _ | PInt _ | PFloat _ => Raise (Builtin (NoLen v))
  end.

(** [v.get(k, default)]: only dictionaries have the method. *)
Definition get (v : pyval) (k : string) (default : pyval) : res pyval :=
  match v with
  | PDict d => Return (from_option id default (d !! k))
  | _ => Raise (Builtin (AttributeError v "get"))
  end.

End Py.

(** ** The environment of a run *)

Inductive level : Type := DEBUG | INFO | ERROR.

(** A record handed to the [logging] module; [logging.exception] attaches the
    exception being handled. *)
Record log_record : Type := LogRecord {
  record_level : level;
  record_message : string;
  record_exc_info : option exn
}.

(** How a logging call ends.  The line is written.  Or the line is lost:
    the handler failed while writing and absorbed its failure, as the stock
    handlers of [logging] do with I/O errors, and the call returns.  Or the
    call raises: a filter or handler attached to the root logger raises, or
    the stock handler re-raises a [RecursionError]. *)
Inductive log_behaviour : Type :=
  | Logged
  | Dropped
  | LogRaises (e : exn).

(** An [httpx.Response] as far as the source reads it. *)
Record response : Type := Response {
  status_code : Z;
  text : string;
  json : res pyval        (* [response.json()] *)
}.

(** What a run leaves behind, in order. *)
Inductive event : Type :=
  | Log (r : log_record)
  | Post (url : string) (headers : gmap string string) (body : pyval)
         (timeout : float)
  | Stdout (line : string)
  | Launch.

(** Everything outside the source file: the process environment, the logging
    library, the event loop of [asyncio], the network and the upstream
    service behind [httpx.AsyncClient.post], [gradio], and the texts the
    interpreter and the libraries produce. *)
Record world : Type := World {
  environ : gmap string string;    (* [os.environ] once [load_dotenv()] ran *)
  basic_config : option exn;       (* [logging.basicConfig] raising, if it does *)
  logging : log_record -> log_behaviour;
  post : string -> gmap string string -> pyval -> float -> res response;
  exc_text : builtin_error -> string;  (* [str(e)] of an interpreter exception *)
  repr : pyval -> string;          (* [str(v)] of a float, list or dict *)
  json_dumps : pyval -> string;    (* [json.dumps(v, indent=2)] *)
  event_loop : option exn;         (* [asyncio.new_event_loop()] raising *)
  loop_run : option exn;           (* [loop.run_until_complete(...)] refusing *)
  loop_close : option exn;         (* [loop.close()] raising *)
  selector_name : string;          (* the selector class of the event loop *)
  status_line : response -> string;  (* version, status and reason, quoted *)
  gradio_interface : option exn;   (* [gr.Interface(...)] raising *)
  gradio_launch : option exn       (* [interface.launch(...)] raising *)
}.

(** [str(e)]. *)
Definition str_exn (w : world) (e : exn) : string :=
  match e with
  | Builtin b => exc_text w b
  | Raised _ description => description
  end.

(** [f"{v}"]. *)
Definition format_value (w : world) (v : pyval) : string :=
  match v with
  | PStr s => s
  | PNone => "None"
  | PBool true => "True"
  | PBool false => "False"
  | PInt z => pretty z
  | PFloat _ | PList _ | PDict _ => repr w v
  end.

(** ** Computations with a trace and exceptions *)

Definition trace : Type := list event.

Definition M (A : Type) : Type := trace -> res A * trace.

#[global] Instance M_ret : MRet M := fun A a t => (Return a, t).
#[global] Instance M_bind : MBind M := fun A B f m t =>
  match m t with
  | (Return a, t') => f a t'
  | (Raise e, t') => (Raise e, t')
  end.

Definition raise {A : Type} (e : exn) : M A := fun t => (Raise e, t).

(** A computation without effects, run inside one with effects. *)
Definition lift {A : Type} (r : res A) : M A := fun t => (r, t).

Definition emit (ev : event) : M unit := fun t => (Return (), (t ++ [ev])%list).

(** [try: body / except Exception as e: handler e]. *)
Definition try_except {A : Type} (body : M A) (handler : exn -> M A) : M A :=
  fun t =>
    match body t with
    | (Return a, t') => (Return a, t')
    | (Raise e, t') => handler e t'
    end.

(** One call into the [logging] module. *)
Definition log (w : world) (r : log_record) : M unit :=
  match logging w r with
  | Logged => emit (Log r)
  | Dropped => mret ()
  | LogRaises e => raise e
  end.

(** [logging.debug(msg)] *)
Definition logging_debug (w : world) (msg : string) : M unit :=
  log w (LogRecord DEBUG msg None).

(** [logging.exception(msg)] inside the handler of [e]. *)
Definition logging_exception (w : world) (msg : string) (e : exn) : M unit :=
  log w (LogRecord ERROR msg (Some e)).

(** The record [asyncio] hands to the logging module when it creates a
    selector event loop: [logger.debug('Using selector: %s', ...)].  The
    root logger is at level DEBUG since the constructor configured it, so
    the records of the libraries reach the same handlers as the source's. *)
Definition selector_record (w : world) : log_record :=
  LogRecord DEBUG ("Using selector: " ++ selector_name w) None.

(** The record [httpx] hands to the logging module once the transport has
    answered a request: [logger.info('HTTP Request: %s %s "%s %d %s"', ...)]. *)
Definition httpx_record (w : world) (url : string) (r : response) : log_record :=
  LogRecord INFO ("HTTP Request: POST " ++ url ++ " " ++ status_line w r) None.

(** [async with httpx.AsyncClient(timeout=...) as client:
       await client.post(url, headers=..., json=...)]
    Creating and entering the client happens right before the request, so
    a failure there counts as a failure of the request; when the transport
    answers, [httpx] logs its request line before [post] returns; leaving
    the client is taken not to raise.  The records that the lower layers
    of a real connection add at level DEBUG are not in the trace. *)
Definition client_post (w : world) (timeout : float) (url : string)
    (headers : gmap string string) (body : pyval) : M response :=
  emit (Post url headers body timeout);;
  r ← lift (post w url headers body timeout);
  log w (httpx_record w url r);;
  mret r.

(** [try: body / finally: final]: [final] runs whatever [body] did, and an
    exception of [final] replaces the result of [body]. *)
Definition try_finally {A : Type} (body : M A) (final : M unit) : M A :=
  fun t =>
    match body t with
    | (r, t') =>
        match final t' with
        | (Return _, t'') => (r, t'')
        | (Raise e, t'') => (Raise e, t'')
        end
    end.

(** [asyncio.new_event_loop()]: the loop is created, which can fail for
    lack of resources, and [asyncio] logs the selector it uses. *)
Definition asyncio_new_event_loop (w : world) : M unit :=
  match event_loop w with
  | Some e => raise e
  | None => log w (selector_record w)
  end.

(** [loop.run_until_complete(coro)]: the loop runs the coroutine to its end,
    whose result or exception is the call's; or it refuses to run, as it
    does in a thread where another loop is running, and the coroutine is
    never started.  [asyncio.set_event_loop(loop)] before it only records
    the loop. *)
Definition asyncio_run_until_complete {A : Type} (w : world) (coro : M A) : M A :=
  match loop_run w with
  | Some e => raise e
  | None => coro
  end.

(** [loop.close()] *)
Definition asyncio_loop_close (w : world) : M unit :=
  match loop_close w with
  | Some e => raise e
  | None => mret ()
  end.

(** [print(line)] *)
Definition print (line : string) : M unit := emit (Stdout line).

(** ** The outcome of a completion *)

(** The source returns a bare Python value.  The tag records which [return]
    statement produced it: the reply's text ([Answer]) or one of the three
    normalised error strings ([Failure]). *)
Inductive outcome : Type :=
  | Answer (content : pyval)
  | Failure (message : string).

(** The value the Python function actually returns. *)
Definition returned_value (o : outcome) : pyval :=
  match o with
  | Answer content => content
  | Failure message => PStr message
  end.

(** The character [\n] of the user message. *)
Definition newline : string := String (Ascii.ascii_of_nat 10) EmptyString.

(** ** class SolarAssistant *)

Module SolarAssistant.

Record t : Type := Self {
  api_key : option string;       (* what [os.getenv] returned *)
  api_base : string
}.

(** [os.getenv(name)] *)
Definition getenv (w : world) (name : string) : option string :=
  environ w !! name.

(** Truth value of [os.getenv]'s result: [None] and [''] are false. *)
Definition truthy (o : option string) : bool :=
  match o with
  | None => false
  | Some s => negb (bool_decide (s = ""))
  end.

(** [f"{self.api_key}"] *)
Definition format_key (o : option string) : string :=
  from_option id "None" o.

Definition __init__ (w : world) : M t :=
  let api_key := getenv w "OPENROUTER_API_KEY" in
  if negb (truthy api_key) then
    raise (ValueError "OpenRouter API key not found in environment variables")
  else
    match basic_config w with
    | Some e => raise e
    | None => mret (Self api_key "https://openrouter.ai/api/v1")
    end.

Definition _generate_system_prompt : string :=
  "You are a specialized solar industry consultant AI assistant. Provide accurate, practical advice while adapting your responses to the user's technical expertise level.".

(** The [headers] dictionary. *)
Definition request_headers (self : t) : gmap string string :=
  list_to_map [
    ("Authorization", "Bearer " ++ format_key (api_key self));
    ("Content-Type", "application/json");
    ("HTTP-Referer", "https://localhost:7860")
  ].

(** The [data] dictionary. *)
Definition request_data (query user_expertise : string) : pyval :=
  PDict (list_to_map [
    ("model", PStr "mistralai/mistral-7b-instruct");
    ("messages", PList [
       PDict (list_to_map [
         ("role", PStr "system");
         ("content", PStr _generate_system_prompt)]);
       PDict (list_to_map [
         ("role", PStr "user");
         ("content", PStr ("User expertise level: " ++ user_expertise
                           ++ newline ++ "Query: " ++ query))])]);
    ("temperature", PFloat 0.7);
    ("max_tokens", PInt 500)
  ]).

Definition unexpected_format : outcome :=
  Failure "Error: Unexpected response format from API".

(** The statements that follow [response_data = response.json()]: from the
    test for ['error'] down to the last [return] of the [try] block. *)
Definition response_mapping (w : world) (response_data : pyval) : res outcome :=
  has_error ← Py.contains "error" response_data;
  if has_error : bool then
    error ← Py.getitem response_data "error";
    error_msg ← Py.get error "message" (PStr "Unknown error");
    mret (Failure ("API error: " ++ format_value w error_msg))
  else
    has_choices ← py_and (Py.contains "choices" response_data)
                         (choices ← Py.getitem response_data "choices";
                          n ← Py.len choices;
                          mret (bool_decide (0 < n)));
    if has_choices : bool then
      choices ← Py.getitem response_data "choices";
      choice ← Py.getitem0 choices;
      has_content ← py_and (Py.contains "message" choice)
                           (message ← Py.getitem choice "message";
                            Py.contains "content" message);
      if has_content : bool then
        message ← Py.getitem choice "message";
        content ← Py.getitem message "content";
        mret (Answer content)
      else
        has_text ← Py.contains "text" choice;
        if has_text : bool then
          text ← Py.getitem choice "text";
          mret (Answer text)
        else mret unexpected_format
    else mret unexpected_format.

(** The default of the parameter [user_expertise] of both methods. *)
Definition default_user_expertise : string := "general".

Definition _async_get_response (w : world) (self : t)
    (query user_expertise : string) : M outcome :=
  try_except
    (let headers := request_headers self in
     let data := request_data query user_expertise in
     logging_debug w ("Sending request with data: " ++ json_dumps w data);;
     response ← client_post w 30.0 (api_base self ++ "/chat/completions")
                  headers data;
     logging_debug w ("Response status code: " ++ pretty (status_code response));;
     let response_text := text response in
     logging_debug w ("Raw response: " ++ response_text);;
     response_data ← lift (json response);
     lift (response_mapping w response_data))
    (fun e =>
       logging_exception w "Error in API call:" e;;
       mret (Failure ("An error occurred: " ++ str_exn w e))).

(** The synchronous wrapper: a fresh event loop is created and set, outside
    any [try]; it runs the coroutine to completion, whose result or
    exception is the wrapper's; the [finally] clause closes the loop. *)
Definition get_response (w : world) (self : t)
    (query user_expertise : string) : M outcome :=
  asyncio_new_event_loop w;;
  try_finally
    (asyncio_run_until_complete w
       (_async_get_response w self query user_expertise))
    (asyncio_loop_close w).

End SolarAssistant.

(** ** class SolarAssistantUI and [main] *)

Module SolarAssistantUI.

Record t : Type := Self { assistant : SolarAssistant.t }.

Definition __init__ (w : world) : M t :=
  assistant ← SolarAssistant.__init__ w;
  mret (Self assistant).

(** The [gr.Interface] as far as it concerns the assistant: the function
    it calls and the radio button that supplies the expertise level. *)
Record interface : Type := Interface {
  fn : string -> string -> M outcome;
  radio_choices : list string;
  radio_value : string
}.

(** [gr.Interface(fn=..., inputs=[...], ...)], which can raise. *)
Definition create_interface (w : world) (self : t) : M interface :=
  match gradio_interface w with
  | Some e => raise e
  | None =>
      mret (Interface (SolarAssistant.get_response w (assistant self))
                      ["general"; "technical"; "expert"] "general")
  end.

(** [interface.launch(debug=True, show_error=True)]: the server is started
    and serves until it is stopped; the call then returns, or it raises. *)
Definition launch (w : world) (i : interface) : M unit :=
  emit Launch;;
  match gradio_launch w with
  | Some e => raise e
  | None => mret ()
  end.

End SolarAssistantUI.

Definition main (w : world) : M unit :=
  print "Starting Solar Industry AI Assistant...";;
  ui ← SolarAssistantUI.__init__ w;
  interface ← SolarAssistantUI.create_interface w ui;
  print "Launching interface...";;
  SolarAssistantUI.launch w interface;;
  print "Interface launched!".

(** ** Running the client *)

(** [complete] is the completion itself: the coroutine
    [_async_get_response], started on an empty trace; [run_trace] is what
    that run leaves behind: its request, and the records handed to the
    logging module, those the source composes and the request line of
    [httpx]. *)
Definition complete (w : world) (self : SolarAssistant.t)
    (query user_expertise : string) : res outcome :=
  fst (SolarAssistant._async_get_response w self query user_expertise []).

Definition run_trace (w : world) (self : SolarAssistant.t)
    (query user_expertise : string) : trace :=
  snd (SolarAssistant._async_get_response w self query user_expertise []).

(** [call] is a call of the wrapper [get_response], as the interface makes
    it: the event loop around the completion; [call_trace] holds the record
    of the event loop's creation before the events of the completion. *)
Definition call (w : world) (self : SolarAssistant.t)
    (query user_expertise : string) : res outcome :=
  fst (SolarAssistant.get_response w self query user_expertise []).

Definition call_trace (w : world) (self : SolarAssistant.t)
    (query user_expertise : string) : trace :=
  snd (SolarAssistant.get_response w self query user_expertise []).

(** The reply of the upstream service to the request of this run. *)
Definition upstream (w : world) (self : SolarAssistant.t)
    (query user_expertise : string) : res response :=
  post w (SolarAssistant.api_base self ++ "/chat/completions")
         (SolarAssistant.request_headers self)
         (SolarAssistant.request_data query user_expertise) 30.0.

(** The upstream service answered and its body parsed to [body]. *)
Definition upstream_body (w : world) (self : SolarAssistant.t)
    (query user_expertise : string) (body : pyval) : Prop :=
  exists r, upstream w self query user_expertise = Return r
            /\ json r = Return body.

(** The transport failed with [e]: the request raised, or the reply came and
    its body did not parse. *)
Definition upstream_fails (w : world) (self : SolarAssistant.t)
    (query user_expertise : string) (e : exn) : Prop :=
  upstream w self query user_expertise = Raise e
  \/ exists r, upstream w self query user_expertise = Return r
               /\ json r = Raise e.

(** No call into the [logging] module raises. *)
Definition logging_returns (w : world) : Prop :=
  forall r e, logging w r <> LogRaises e.

(** The event loop can be created, runs the coroutine, and can be closed. *)
Definition event_loop_works (w : world) : Prop :=
  event_loop w = None /\ loop_run w = None /\ loop_close w = None.

(** The logging call made while the event loop is created does not raise. *)
Definition loop_logging_returns (w : world) : Prop :=
  forall e, logging w (selector_record w) <> LogRaises e.

(** The logging call of the [except] clause does not raise. *)
Definition handler_logging_returns (w : world) : Prop :=
  forall e e',
    logging w (LogRecord ERROR "Error in API call:" (Some e)) <> LogRaises e'.

(** What the [except] clause makes of the result of the [try] block, when its
    own logging call returns. *)
Definition caught (w : world) (r : res outcome) : res outcome :=
  match r with
  | Return o => Return o
  | Raise e => Return (Failure ("An error occurred: " ++ str_exn w e))
  end.

(** The requests a run sent, in order: url, headers, body, timeout. *)
Definition posts (t : trace) : list (string * gmap string string * pyval * float) :=
  omap (fun ev =>
          match ev with
          | Post url headers body timeout => Some (url, headers, body, timeout)
          | _ => None
          end) t.

(** The same environment with another logging module. *)
Definition with_logging (l : log_record -> log_behaviour) (w : world) : world :=
  {| environ := environ w;
     basic_config := basic_config w;
     logging := l;
     post := post w;
     exc_text := exc_text w;
     repr := repr w;
     json_dumps := json_dumps w;
     event_loop := event_loop w;
     loop_run := loop_run w;
     loop_close := loop_close w;
     selector_name := selector_name w;
     status_line := status_line w;
     gradio_interface := gradio_interface w;
     gradio_launch := gradio_launch w |}.

(** The same environment with other process variables. *)
Definition with_environ (env : gmap string string) (w : world) : world :=
  {| environ := env;
     basic_config := basic_config w;
     logging := logging w;
     post := post w;
     exc_text := exc_text w;
     repr := repr w;
     json_dumps := json_dumps w;
     event_loop := event_loop w;
     loop_run := loop_run w;
     loop_close := loop_close w;
     selector_name := selector_name w;
     status_line := status_line w;
     gradio_interface := gradio_interface w;
     gradio_launch := gradio_launch w |}.

(** A logging module that raises [e] for every record of level DEBUG, and
    writes the others. *)
Definition debug_raises (e : exn) (r : log_record) : log_behaviour :=
  match record_level r with
  | DEBUG => LogRaises e
  | INFO | ERROR => Logged
  end.

(** A logging module that raises [e] for the first debug line of the source,
    the one with the request payload, and writes every other record. *)
Definition sending_raises (e : exn) (r : log_record) : log_behaviour :=
  if String.prefix "Sending request with data: " (record_message r)
  then LogRaises e
  else Logged.

(** A logging module that raises [e] for every record of level ERROR, and
    writes the others. *)
Definition error_raises (e : exn) (r : log_record) : log_behaviour :=
  match record_level r with
  | ERROR => LogRaises e
  | DEBUG | INFO => Logged
  end.

(** What a run makes of the upstream behaviour when its logging calls
    return. *)
Definition outcome_of (w : world) (u : res response) : res outcome :=
  caught w (r ← u; body ← json r; SolarAssistant.response_mapping w body).

(** ** A sample environment *)

Module Sample.

Definition type_name (v : pyval) : string :=
  match v with
  | PNone => "NoneType"
  | PBool _ => "bool"
  | PInt _ => "int"
  | PFloat _ => "float"
  | PStr _ => "str"
  | PList _ => "list"
  | PDict _ => "dict"
  end.

(** The wording of CPython 3.12. *)
Definition cpython_text (b : builtin_error) : string :=
  match b with
  | NotIterable v => "argument of type '" ++ type_name v ++ "' is not iterable"
  | BadIndexType (PStr _) _ => "string indices must be integers, not 'str'"
  | BadIndexType _ _ => "list indices must be integers or slices, not str"
  | NotSubscriptable v => "'" ++ type_name v ++ "' object is not subscriptable"
  | NoLen v => "object of type '" ++ type_name v ++ "' has no len()"
  | KeyError (PStr k) => "'" ++ k ++ "'"
  | KeyError (PInt z) => pretty z
  | KeyError _ => ""
  | IndexError (PStr _) => "string index out of range"
  | IndexError _ => "list index out of range"
  | AttributeError v attr =>
      "'" ++ type_name v ++ "' object has no attribute '" ++ attr ++ "'"
  end.

Definition key : string := "sk-or-v1-test".

Definition self : SolarAssistant.t :=
  SolarAssistant.Self (Some key) "https://openrouter.ai/api/v1".

(** An environment with the credential set, a logging module that writes
    every line, libraries that do not fail, and an upstream service with
    one fixed behaviour.  The
    renderings [repr] and [json_dumps] only feed log lines and the text of
    non-string error messages; they are left trivial. *)
Definition world_of (reply : res response) : world :=
  {| environ := {[ "OPENROUTER_API_KEY" := key ]};
     basic_config := None;
     logging := fun _ => Logged;
     post := fun _ _ _ _ => reply;
     exc_text := cpython_text;
     repr := fun _ => "";
     json_dumps := fun _ => "";
     event_loop := None;
     loop_run := None;
     loop_close := None;
     selector_name := "EpollSelector";
     status_line := fun r => "HTTP/1.1 " ++ pretty (status_code r);
     gradio_interface := None;
     gradio_launch := None |}.

(** The upstream service answers 200 with a body that parses to [body]. *)
Definition replying (body : pyval) : world :=
  world_of (Return (Response 200 "" (Return body))).

Definition dict (l : list (string * pyval)) : pyval := PDict (list_to_map l).

End Sample.

(** ** Replies used as concrete inputs *)

Module Reply.

(** [{"choices":[{"message":{"content":"X"}}]}] *)
Definition message_x : pyval :=
  Sample.dict [("choices", PList [
    Sample.dict [("message", Sample.dict [("content", PStr "X")])]])].

(** [{"choices":[{"text":"Y"}]}] *)
Definition text_y : pyval :=
  Sample.dict [("choices", PList [Sample.dict [("text", PStr "Y")]])].

(** [{"error":{"message":"bad key"}}] *)
Definition error_bad_key : pyval :=
  Sample.dict [("error", Sample.dict [("message", PStr "bad key")])].

(** [{}] *)
Definition empty_object : pyval := Sample.dict [].

(** [{"choices":[{}, {"message":{"content":"X"}}]}] *)
Definition later_choice : pyval :=
  Sample.dict [("choices", PList [
    Sample.dict [];
    Sample.dict [("message", Sample.dict [("content", PStr "X")])]])].

(** [{"error":"bad key"}] *)
Definition error_string : pyval :=
  Sample.dict [("error", PStr "bad key")].

(** [{"choices":[{"message":null,"text":"Y"}]}] *)
Definition null_message : pyval :=
  Sample.dict [("choices", PList [
    Sample.dict [("message", PNone); ("text", PStr "Y")]])].

(** [{"choices":null}] *)
Definition null_choices : pyval :=
  Sample.dict [("choices", PNone)].

(** [{"choices":[{"message":{"content":null}}]}] *)
Definition null_content : pyval :=
  Sample.dict [("choices", PList [
    Sample.dict [("message", Sample.dict [("content", PNone)])]])].

(** [{"error":null,"choices":[{"text":"Y"}]}] *)
Definition null_error_with_choices : pyval :=
  Sample.dict [("error", PNone);
               ("choices", PList [Sample.dict [("text", PStr "Y")]])].

End Reply.

(** ** The shapes of a reply, as the specification names them *)

(** The body is an object with a top-level ["error"] member. *)
Definition has_error_key (body : pyval) : bool :=
  match body with
  | PDict d => bool_decide (is_Some (d !! "error"))
  | _ => false
  end.

(** The completion choices of the body, in order. *)
Definition choices_of (body : pyval) : list pyval :=
  match body with
  | PDict d =>
      match d !! "choices" with
      | Some (PList l) => l
      | _ => []
      end
  | _ => []
  end.

(** The choice exposes a message with content: [{"message": {"content": v}}]. *)
Definition message_content (choice : pyval) : option pyval :=
  match choice with
  | PDict c =>
      match c !! "message" with
      | Some (PDict m) => m !! "content"
      | _ => None
      end
  | _ => None
  end.

(** The choice exposes a flat text field: [{"text": v}]. *)
Definition flat_text (choice : pyval) : option pyval :=
  match choice with
  | PDict c => c !! "text"
  | _ => None
  end.

(** The first choice carries no message with content: the member is
    missing, or it is an object without content. *)
Definition no_message_content (c : gmap string pyval) : Prop :=
  c !! "message" = None
  \/ exists m : gmap string pyval,
       c !! "message" = Some (PDict m) /\ m !! "content" = None.

(** The body matches no recognised shape: no choices member, an empty list
    of choices, or a first choice with neither text nor message content. *)
Definition unrecognised (d : gmap string pyval) : Prop :=
  d !! "choices" = None
  \/ d !! "choices" = Some (PList [])
  \/ exists (c : gmap string pyval) rest,
       d !! "choices" = Some (PList (PDict c :: rest))
       /\ no_message_content c /\ c !! "text" = None.

Definition is_str (v : pyval) : bool :=
  match v with
  | PStr _ => true
  | _ => false
  end.

(** The lines a returning logging call adds to the trace. *)
Definition logged (w : world) (r : log_record) : trace :=
  match logging w r with
  | Logged => [Log r]
  | Dropped | LogRaises _ => []
  end.

(** ** Notions used by the further properties *)

(** The log records of a trace, in order. *)
Definition logs (t : trace) : list log_record :=
  omap (fun ev =>
          match ev with
          | Log r => Some r
          | _ => None
          end) t.

(** The four records a run can hand to the logging module. *)
Definition sending_record (w : world) (query user_expertise : string) : log_record :=
  LogRecord DEBUG
    ("Sending request with data: "
     ++ json_dumps w (SolarAssistant.request_data query user_expertise)) None.

Definition status_record (r : response) : log_record :=
  LogRecord DEBUG ("Response status code: " ++ pretty (status_code r)) None.

Definition raw_record (r : response) : log_record :=
  LogRecord DEBUG ("Raw response: " ++ text r) None.

Definition error_record (e : exn) : log_record :=
  LogRecord ERROR "Error in API call:" (Some e).

(** The request of a run, as it appears in [posts]. *)
Definition request_of (self : SolarAssistant.t) (query user_expertise : string)
    : string * gmap string string * pyval * float :=
  (SolarAssistant.api_base self ++ "/chat/completions",
   SolarAssistant.request_headers self,
   SolarAssistant.request_data query user_expertise, 30.0%float).

(** The [except] clause, run for [e] on the trace [t]. *)
Definition handler_result (w : world) (e : exn) (t : trace) : res outcome * trace :=
  (logging_exception w "Error in API call:" e;;
   mret (Failure ("An error occurred: " ++ str_exn w e)) : M outcome) t.

(** Events of the [try] block: requests and lines below level ERROR. *)
Definition quiet (ev : event) : Prop :=
  match ev with
  | Log r => record_level r <> ERROR
  | Post _ _ _ _ => True
  | Stdout _ | Launch => False
  end.

(** A computation only appends to the trace, and what it does and returns
    does not depend on the trace it starts from. *)
Definition framed {A : Type} (m : M A) : Prop :=
  forall t, m t = ((m []).1, (t ++ (m []).2)%list).

(** The same environment with another upstream service. *)
Definition with_post
    (p : string -> gmap string string -> pyval -> float -> res response)
    (w : world) : world :=
  {| environ := environ w;
     basic_config := basic_config w;
     logging := logging w;
     post := p;
     exc_text := exc_text w;
     repr := repr w;
     json_dumps := json_dumps w;
     event_loop := event_loop w;
     loop_run := loop_run w;
     loop_close := loop_close w;
     selector_name := selector_name w;
     status_line := status_line w;
     gradio_interface := gradio_interface w;
     gradio_launch := gradio_launch w |}.

(** The body follows the schema of the upstream interface as far as the
    mapping reads it: an object; its error member, if any, an object; else
    its choices member, if any, a list; the first choice, if any, an object;
    the message member of that choice, if any, an object. *)
Definition follows_schema (body : pyval) : Prop :=
  exists d : gmap string pyval,
    body = PDict d
    /\ ((exists err : gmap string pyval, d !! "error" = Some (PDict err))
        \/ (d !! "error" = None
            /\ (d !! "choices" = None
                \/ d !! "choices" = Some (PList [])
                \/ exists (c : gmap string pyval) rest,
                     d !! "choices" = Some (PList (PDict c :: rest))
                     /\ (c !! "message" = None
                         \/ exists m : gmap string pyval,
                              c !! "message" = Some (PDict m))))).

(** Neither an object, nor a list, nor a string. *)
Definition is_scalar (v : pyval) : bool :=
  match v with
  | PNone | PBool _ | PInt _ | PFloat _ => true
  | PStr _ | PList _ | PDict _ => false
  end.

(** The content of the user message of a request body. *)
Definition user_content (data : pyval) : option pyval :=
  match data with
  | PDict fields =>
      match fields !! "messages" with
      | Some (PList [_; PDict user]) => user !! "content"
      | _ => None
      end
  | _ => None
  end.

(** The string holds no line break. *)
Fixpoint no_line_break (s : string) : bool :=
  match s with
  | EmptyString => true
  | String c rest =>
      negb (Ascii.eqb c (Ascii.ascii_of_nat 10)) && no_line_break rest
  end.

(** [needle] occurs in [s]. *)
Definition occurs_in (needle s : string) : Prop :=
  exists a b, s = a ++ needle ++ b.

(** * Properties *)

(** ** How a run decomposes *)

Section Monad_equations.
Context {A B : Type}.

Lemma bind_eq (m : M A) (f : A -> M B) (t : trace) :
  (m ≫= f) t =
  match m t with
  | (Return a, t') => f a t'
  | (Raise e, t') => (Raise e, t')
  end.
Proof. reflexivity. Qed.

Lemma try_except_eq (body : M A) (handler : exn -> M A) (t : trace) :
  try_except body handler t =
  match body t with
  | (Return a, t') => (Return a, t')
  | (Raise e, t') => handler e t'
  end.
Proof. reflexivity. Qed.

Lemma lift_eq (r : res A) (t : trace) : lift r t = (r, t).
Proof. reflexivity. Qed.

End Monad_equations.

(** ** Computations only append to the trace *)

Lemma framed_ret {A : Type} (a : A) : framed (mret a : M A).
Proof. intros t. cbn. by rewrite app_nil_r. Qed.

Lemma framed_raise {A : Type} (e : exn) : framed (raise e : M A).
Proof. intros t. cbn. by rewrite app_nil_r. Qed.

Lemma framed_lift {A : Type} (r : res A) : framed (lift r).
Proof. intros t. cbn. by rewrite app_nil_r. Qed.

Lemma framed_emit ev : framed (emit ev).
Proof. by intros t. Qed.

Lemma framed_log w r : framed (log w r).
Proof.
  unfold log. destruct (logging w r).
  - apply framed_emit.
  - apply framed_ret.
  - apply framed_raise.
Qed.

Lemma framed_bind {A B : Type} (m : M A) (f : A -> M B) :
  framed m -> (forall a, framed (f a)) -> framed (m ≫= f).
Proof.
  intros Hm Hf t. rewrite !bind_eq, (Hm t).
  destruct (m []) as [[a|e] t0]; cbn [fst snd]; [|done].
  rewrite (Hf a (t ++ t0)%list), (Hf a t0). cbn [fst snd].
  by rewrite app_assoc.
Qed.

Lemma framed_try_except {A : Type} (body : M A) (handler : exn -> M A) :
  framed body -> (forall e, framed (handler e)) ->
  framed (try_except body handler).
Proof.
  intros Hb Hh t. rewrite !try_except_eq, (Hb t).
  destruct (body []) as [[a|e] t0]; cbn [fst snd]; [done|].
  rewrite (Hh e (t ++ t0)%list), (Hh e t0). cbn [fst snd].
  by rewrite app_assoc.
Qed.

Lemma framed_client_post w timeout url headers body :
  framed (client_post w timeout url headers body).
Proof.
  unfold client_post. apply framed_bind; [apply framed_emit|]. intros _.
  apply framed_bind; [apply framed_lift|]. intros r.
  apply framed_bind; [apply framed_log|]. intros _. apply framed_ret.
Qed.

Lemma framed_async_get_response w self q lvl :
  framed (SolarAssistant._async_get_response w self q lvl).
Proof.
  unfold SolarAssistant._async_get_response.
  apply framed_try_except.
  - apply framed_bind; [apply framed_log|]. intros _.
    apply framed_bind; [apply framed_client_post|].
    intros r. apply framed_bind; [apply framed_log|]. intros _.
    apply framed_bind; [apply framed_log|]. intros _.
    apply framed_bind; [apply framed_lift|]. intros body.
    apply framed_lift.
  - intros e. apply framed_bind; [apply framed_log|]. intros _.
    apply framed_ret.
Qed.

Lemma log_eq w r t :
  logging_returns w -> log w r t = (Return (), (t ++ logged w r)%list).
Proof.
  intros Hlog. unfold log, logged.
  destruct (logging w r) eqn:E.
  - reflexivity.
  - by rewrite app_nil_r.
  - destruct (Hlog _ _ E).
Qed.

Lemma log_cases w r t :
  log w r t = (Return (), (t ++ logged w r)%list)
  \/ exists e, log w r t = (Raise e, t).
Proof.
  unfold log, logged. destruct (logging w r) as [| |e].
  - by left.
  - left. by rewrite app_nil_r.
  - right. by exists e.
Qed.

Lemma log_cases_raise w r t :
  log w r t = (Return (), (t ++ logged w r)%list)
  \/ exists e, logging w r = LogRaises e /\ log w r t = (Raise e, t).
Proof.
  unfold log, logged. destruct (logging w r) as [| |e].
  - by left.
  - left. by rewrite app_nil_r.
  - right. by exists e.
Qed.

Lemma quiet_logged w r :
  record_level r <> ERROR -> Forall quiet (logged w r).
Proof.
  intros H. unfold logged. destruct (logging w r); repeat constructor. exact H.
Qed.

Lemma posts_app t1 t2 : posts (t1 ++ t2)%list = (posts t1 ++ posts t2)%list.
Proof. apply omap_app. Qed.

Lemma posts_logged w r : posts (logged w r) = [].
Proof. unfold logged. by destruct (logging w r). Qed.

Lemma posts_snoc_log t r : posts (t ++ [Log r])%list = posts t.
Proof. by rewrite posts_app, app_nil_r. Qed.

Lemma logs_app t1 t2 : logs (t1 ++ t2)%list = (logs t1 ++ logs t2)%list.
Proof. apply omap_app. Qed.

Lemma quiet_logs_debug pre r :
  Forall quiet pre -> r ∈ logs pre -> record_level r <> ERROR.
Proof.
  intros Hq Hr. unfold logs in Hr.
  apply list_elem_of_omap in Hr as (ev & Hev & Hsome).
  rewrite Forall_forall in Hq. specialize (Hq ev Hev).
  destruct ev; try discriminate. injection Hsome as <-. exact Hq.
Qed.

Lemma client_post_eq w timeout url headers body t :
  logging_returns w ->
  client_post w timeout url headers body t =
  (post w url headers body timeout,
   (t ++ Post url headers body timeout
      :: match post w url headers body timeout with
         | Return r => logged w (httpx_record w url r)
         | Raise _ => []
         end)%list).
Proof.
  intros Hlog. unfold client_post. rewrite bind_eq. unfold emit at 1.
  rewrite bind_eq, lift_eq.
  destruct (post w url headers body timeout) as [r|e]; [|done].
  rewrite bind_eq, log_eq by done. cbn. by rewrite <- app_assoc.
Qed.

Lemma client_post_unfold w timeout url headers body t :
  client_post w timeout url headers body t =
  match post w url headers body timeout with
  | Return r =>
      match log w (httpx_record w url r)
                  (t ++ [Post url headers body timeout])%list with
      | (Return _, t') => (Return r, t')
      | (Raise e, t') => (Raise e, t')
      end
  | Raise e => (Raise e, (t ++ [Post url headers body timeout])%list)
  end.
Proof.
  unfold client_post. rewrite bind_eq. unfold emit at 1.
  rewrite bind_eq, lift_eq.
  destruct (post w url headers body timeout) as [r|e]; [|done].
  rewrite bind_eq. by destruct (log w _ _) as [[[]|e] t'].
Qed.

(** The request is recorded; then it raises, or the transport answers and
    the request line of [httpx] is logged, which can raise as well. *)
Lemma client_post_cases w timeout url headers body t :
  exists suffix,
    Forall quiet suffix
    /\ posts suffix = [(url, headers, body, timeout)]
    /\ ((exists r,
           post w url headers body timeout = Return r
           /\ client_post w timeout url headers body t =
              (Return r, (t ++ suffix)%list))
        \/ (exists e,
              post w url headers body timeout = Raise e
              /\ client_post w timeout url headers body t =
                 (Raise e, (t ++ suffix)%list))
        \/ (exists r e,
              post w url headers body timeout = Return r
              /\ logging w (httpx_record w url r) = LogRaises e
              /\ client_post w timeout url headers body t =
                 (Raise e, (t ++ suffix)%list))).
Proof.
  rewrite client_post_unfold.
  destruct (post w url headers body timeout) as [r|e].
  - destruct (log_cases_raise w (httpx_record w url r)
                (t ++ [Post url headers body timeout])%list)
      as [-> | (e & He & ->)].
    + exists (Post url headers body timeout :: logged w (httpx_record w url r)).
      split; [|split].
      * constructor; [done|]. by apply quiet_logged.
      * change (Post url headers body timeout :: ?l)
          with ([Post url headers body timeout] ++ l)%list.
        by rewrite posts_app, posts_logged.
      * left. exists r. split; [done|]. by rewrite <- app_assoc.
    + exists [Post url headers body timeout]. split; [|split].
      * by repeat constructor.
      * done.
      * right. right. by exists r, e.
  - exists [Post url headers body timeout]. split; [|split].
    + by repeat constructor.
    + done.
    + right. left. by exists e.
Qed.

Lemma handler_eq w e t :
  handler_logging_returns w ->
  (logging_exception w "Error in API call:" e;;
   mret (Failure ("An error occurred: " ++ str_exn w e)) : M outcome) t =
  (Return (Failure ("An error occurred: " ++ str_exn w e)),
   (t ++ logged w (LogRecord ERROR "Error in API call:" (Some e)))%list).
Proof.
  intros Hlog. rewrite bind_eq. unfold logging_exception, log, logged.
  destruct (logging w _) as [| |e'] eqn:E.
  - reflexivity.
  - by rewrite app_nil_r.
  - destruct (Hlog _ _ E).
Qed.

Lemma handler_result_cases w e t :
  (logging w (error_record e) = Logged
   /\ handler_result w e t =
      (Return (Failure ("An error occurred: " ++ str_exn w e)),
       (t ++ [Log (error_record e)])%list))
  \/ (logging w (error_record e) = Dropped
      /\ handler_result w e t =
         (Return (Failure ("An error occurred: " ++ str_exn w e)), t))
  \/ (exists e', logging w (error_record e) = LogRaises e'
                 /\ handler_result w e t = (Raise e', t)).
Proof.
  unfold handler_result, logging_exception, error_record.
  rewrite bind_eq. unfold log.
  destruct (logging w _) as [| |e'] eqn:E.
  - left. by split.
  - right. left. by split.
  - right. right. exists e'. by split.
Qed.

(** The [except] clause sends nothing. *)
Lemma posts_handler w e t :
  posts ((logging_exception w "Error in API call:" e;;
          mret (Failure ("An error occurred: " ++ str_exn w e)) : M outcome) t).2
  = posts t.
Proof.
  rewrite bind_eq. unfold logging_exception.
  destruct (log_cases w (LogRecord ERROR "Error in API call:" (Some e)) t)
    as [-> | (e' & ->)]; [|done].
  cbn. by rewrite posts_app, posts_logged, app_nil_r.
Qed.

Lemma complete_of_body w self q lvl body :
  logging_returns w ->
  upstream_body w self q lvl body ->
  complete w self q lvl = caught w (SolarAssistant.response_mapping w body).
Proof.
  intros Hlog (r & Hpost & Hjson).
  unfold complete, SolarAssistant._async_get_response, logging_debug,
    logging_exception, upstream in *.
  rewrite try_except_eq, bind_eq, log_eq by done.
  rewrite bind_eq, client_post_eq, Hpost by done.
  rewrite bind_eq, log_eq by done.
  rewrite bind_eq, log_eq by done.
  rewrite bind_eq, lift_eq, Hjson, lift_eq.
  destruct (SolarAssistant.response_mapping w body) as [o|e]; [done|].
  by rewrite bind_eq, log_eq.
Qed.

Lemma complete_of_failure w self q lvl e :
  logging_returns w ->
  upstream_fails w self q lvl e ->
  complete w self q lvl = Return (Failure ("An error occurred: " ++ str_exn w e)).
Proof.
  intros Hlog Hfail.
  unfold complete, SolarAssistant._async_get_response, logging_debug,
    logging_exception, upstream_fails, upstream in *.
  rewrite try_except_eq, bind_eq, log_eq by done.
  rewrite bind_eq, client_post_eq by done.
  destruct Hfail as [-> | (r & -> & Hjson)].
  - by rewrite bind_eq, log_eq.
  - rewrite bind_eq, log_eq by done.
    rewrite bind_eq, log_eq by done.
    rewrite bind_eq, lift_eq, Hjson.
    by rewrite bind_eq, log_eq.
Qed.

(** A run either fails to log its first line, and goes to the [except]
    clause having done nothing; or it sends its request, and then ends in
    the mapping of the parsed body or in the [except] clause, having left
    only the request and lines below level ERROR behind. *)
Lemma run_cases w self q lvl :
  (exists e,
      logging w (sending_record w q lvl) = LogRaises e
      /\ SolarAssistant._async_get_response w self q lvl [] = handler_result w e [])
  \/ ((forall e, logging w (sending_record w q lvl) <> LogRaises e)
      /\ exists pre,
           Forall quiet pre
           /\ posts pre = [request_of self q lvl]
           /\ ((exists body o,
                   upstream_body w self q lvl body
                   /\ SolarAssistant.response_mapping w body = Return o
                   /\ SolarAssistant._async_get_response w self q lvl [] = (Return o, pre))
               \/ (exists e,
                     SolarAssistant._async_get_response w self q lvl [] =
                     handler_result w e pre))).
Proof.
  unfold SolarAssistant._async_get_response, logging_debug, upstream_body,
    upstream, handler_result.
  rewrite try_except_eq, bind_eq.
  destruct (log_cases_raise w (sending_record w q lvl) [])
    as [H1 | (e & He & H1)]; unfold sending_record in H1; rewrite H1.
  2:{ left. by exists e. }
  right. split.
  { intros e He. unfold log in H1. unfold sending_record in He.
    rewrite He in H1. discriminate. }
  rewrite bind_eq.
  set (t0 := ([] ++ logged w _)%list).
  assert (Forall quiet t0) as Hq0.
  { unfold t0. by apply quiet_logged. }
  assert (posts t0 = []) as Hp0.
  { unfold t0. by rewrite app_nil_l, posts_logged. }
  destruct (client_post_cases w 30.0%float
              (SolarAssistant.api_base self ++ "/chat/completions")
              (SolarAssistant.request_headers self)
              (SolarAssistant.request_data q lvl) t0)
    as (suffix & Hqs & Hps & [(r & Hpost & ->) | [(e & Hpost & ->) | (r & e & Hpost & He & ->)]]).
  2,3: exists (t0 ++ suffix)%list;
       (split; [by apply Forall_app|]);
       (split; [by rewrite posts_app, Hp0, Hps|]);
       right; by exists e.
  set (sent := (t0 ++ suffix)%list).
  assert (Forall quiet sent) as Hq by by apply Forall_app.
  assert (posts sent = [request_of self q lvl]) as Hp
    by by (unfold sent; rewrite posts_app, Hp0, Hps).
  rewrite bind_eq.
  destruct (log_cases w (status_record r) sent) as [H2 | (e & H2)];
    unfold status_record in H2; rewrite H2.
  2:{ exists sent. split; [done|]. split; [done|]. right. by exists e. }
  set (seen := (sent ++ logged w _)%list).
  assert (Forall quiet seen) as Hq2.
  { unfold seen. apply Forall_app. split; [done|]. by apply quiet_logged. }
  assert (posts seen = [request_of self q lvl]) as Hp2.
  { unfold seen. by rewrite posts_app, posts_logged, app_nil_r. }
  rewrite bind_eq.
  destruct (log_cases w (raw_record r) seen) as [H3 | (e & H3)];
    unfold raw_record in H3; rewrite H3.
  2:{ exists seen. split; [done|]. split; [done|]. right. by exists e. }
  set (all := (seen ++ logged w _)%list).
  assert (Forall quiet all) as Hq3.
  { unfold all. apply Forall_app. split; [done|]. by apply quiet_logged. }
  assert (posts all = [request_of self q lvl]) as Hp3.
  { unfold all. by rewrite posts_app, posts_logged, app_nil_r. }
  exists all. split; [done|]. split; [done|].
  rewrite bind_eq, lift_eq.
  destruct (json r) as [body|e] eqn:Hjson; [|right; by exists e].
  rewrite lift_eq.
  destruct (SolarAssistant.response_mapping w body) as [o|e] eqn:Hmap;
    [|right; by exists e].
  left. exists body, o. split; [by exists r|done].
Qed.

(** A run ends in the mapping of the parsed body, or in the [except]
    clause. *)
Lemma complete_cases w self q lvl :
  handler_logging_returns w ->
  (exists body o,
      upstream_body w self q lvl body
      /\ SolarAssistant.response_mapping w body = Return o
      /\ complete w self q lvl = Return o)
  \/ (exists e,
        complete w self q lvl =
        Return (Failure ("An error occurred: " ++ str_exn w e))).
Proof.
  intros Hlog. unfold complete.
  assert (forall e t, (handler_result w e t).1 =
            Return (Failure ("An error occurred: " ++ str_exn w e))) as Hh.
  { intros e t. unfold handler_result. by rewrite handler_eq. }
  destruct (run_cases w self q lvl)
    as [(e & _ & ->) | (_ & pre & _ & _ & [(body & o & Hup & Hmap & ->) | (e & ->)])].
  - right. exists e. apply Hh.
  - left. by exists body, o.
  - right. exists e. apply Hh.
Qed.

(** When the [except] clause can log, the outcome is the one the upstream
    behaviour determines, unless a logging call of the [try] block raised:
    then it is the failure that describes the exception of that call. *)
Lemma complete_or_logging_failure w self q lvl :
  handler_logging_returns w ->
  complete w self q lvl = outcome_of w (upstream w self q lvl)
  \/ exists r e,
       record_level r <> ERROR
       /\ logging w r = LogRaises e
       /\ complete w self q lvl =
          Return (Failure ("An error occurred: " ++ str_exn w e)).
Proof.
  intros Hlog.
  unfold outcome_of, complete, SolarAssistant._async_get_response,
    logging_debug, upstream.
  rewrite try_except_eq, bind_eq.
  destruct (log_cases_raise w (sending_record w q lvl) [])
    as [H1 | (e & He & H1)]; unfold sending_record in H1; rewrite H1.
  2:{ right. exists (sending_record w q lvl), e.
      split; [done|]. split; [exact He|]. by rewrite handler_eq. }
  rewrite bind_eq.
  destruct (client_post_cases w 30.0%float
              (SolarAssistant.api_base self ++ "/chat/completions")
              (SolarAssistant.request_headers self)
              (SolarAssistant.request_data q lvl) ([] ++ logged w
                 (LogRecord DEBUG ("Sending request with data: " ++
                    json_dumps w (SolarAssistant.request_data q lvl)) None))%list)
    as (suffix & _ & _ & [(r & Hpost & ->) | [(e & Hpost & ->) | (r & e & Hpost & He & ->)]]);
    rewrite Hpost.
  2:{ left. by rewrite handler_eq. }
  2:{ right. exists (httpx_record w
                      (SolarAssistant.api_base self ++ "/chat/completions") r), e.
      split; [done|]. split; [exact He|]. by rewrite handler_eq. }
  rewrite bind_eq.
  match goal with |- context [log w ?r0 ?t] =>
    destruct (log_cases_raise w r0 t) as [-> | (e & He & ->)] end.
  2:{ right. eexists _, e. split; [|split; [exact He|by rewrite handler_eq]].
      done. }
  rewrite bind_eq.
  match goal with |- context [log w ?r0 ?t] =>
    destruct (log_cases_raise w r0 t) as [-> | (e & He & ->)] end.
  2:{ right. eexists _, e. split; [|split; [exact He|by rewrite handler_eq]].
      done. }
  left. rewrite bind_eq, lift_eq. cbn [mbind res_bind].
  destruct (json r) as [body|e] eqn:Hjson;
    [|rewrite handler_eq by done; reflexivity].
  rewrite lift_eq. cbn [mbind res_bind].
  destruct (SolarAssistant.response_mapping w body) as [o|e] eqn:Hmap;
    [reflexivity|rewrite handler_eq by done; reflexivity].
Qed.

(** A run sends nothing, or the one request built from its arguments. *)
Lemma posts_of_run w self q lvl :
  posts (run_trace w self q lvl) = []
  \/ posts (run_trace w self q lvl) =
     [(SolarAssistant.api_base self ++ "/chat/completions",
       SolarAssistant.request_headers self,
       SolarAssistant.request_data q lvl, 30.0%float)].
Proof.
  unfold run_trace.
  assert (forall e t, posts (handler_result w e t).2 = posts t) as Hh.
  { intros e t. apply posts_handler. }
  destruct (run_cases w self q lvl)
    as [(e & _ & ->) | (_ & pre & _ & Hp & [(body & o & _ & _ & ->) | (e & ->)])].
  - left. by rewrite Hh.
  - by right.
  - right. by rewrite Hh.
Qed.

Lemma run_returns_cases w self q lvl o :
  complete w self q lvl = Return o ->
  (exists body, upstream_body w self q lvl body
                /\ SolarAssistant.response_mapping w body = Return o)
  \/ exists e, o = Failure ("An error occurred: " ++ str_exn w e).
Proof.
  unfold complete. intros H.
  assert (forall e0 t, (handler_result w e0 t).1 = Return o ->
            o = Failure ("An error occurred: " ++ str_exn w e0)) as Hh.
  { intros e0 t H0.
    destruct (handler_result_cases w e0 t)
      as [(_ & Heq) | [(_ & Heq) | (e' & He' & Heq)]];
      rewrite Heq in H0; cbn [fst] in H0; congruence. }
  destruct (run_cases w self q lvl)
    as [(e0 & _ & Hrun) | (_ & pre & _ & _ & [(body & o' & Hup & Hmap & Hrun) | (e0 & Hrun)])];
    rewrite Hrun in H.
  - right. exists e0. by apply (Hh e0 []).
  - left. exists body. injection H as <-. by split.
  - right. exists e0. by apply (Hh e0 pre).
Qed.

(** ** The primitives on dictionaries *)

Lemma contains_present (d : gmap string pyval) k x :
  d !! k = Some x -> Py.contains k (PDict d) = Return true.
Proof.
  intros H. unfold Py.contains. by rewrite bool_decide_eq_true_2; [|eexists].
Qed.

Lemma contains_absent (d : gmap string pyval) k :
  d !! k = None -> Py.contains k (PDict d) = Return false.
Proof.
  intros H. unfold Py.contains. rewrite bool_decide_eq_false_2; [done|].
  rewrite H. by intros [? ?].
Qed.

Lemma getitem_present (d : gmap string pyval) k x :
  d !! k = Some x -> Py.getitem (PDict d) k = Return x.
Proof. intros H. unfold Py.getitem. by rewrite H. Qed.

Ltac res_step :=
  cbn [mbind res_bind mret res_ret py_and Py.len Py.getitem0 Py.get length].

(** ** The mapping of a parsed body *)

Lemma mapping_error w (d err : gmap string pyval) :
  d !! "error" = Some (PDict err) ->
  SolarAssistant.response_mapping w (PDict d) =
  Return (Failure ("API error: " ++
    format_value w (from_option id (PStr "Unknown error") (err !! "message")))).
Proof.
  intros H. unfold SolarAssistant.response_mapping.
  rewrite (contains_present _ _ _ H). res_step.
  rewrite (getitem_present _ _ _ H). by res_step.
Qed.

(** Without an error member, the mapping is decided by the first choice. *)
Lemma mapping_first_choice w (d c : gmap string pyval) rest :
  d !! "error" = None ->
  d !! "choices" = Some (PList (PDict c :: rest)) ->
  SolarAssistant.response_mapping w (PDict d) =
  (has_content ← py_and (Py.contains "message" (PDict c))
                        (message ← Py.getitem (PDict c) "message";
                         Py.contains "content" message);
   if has_content : bool then
     message ← Py.getitem (PDict c) "message";
     content ← Py.getitem message "content";
     mret (Answer content)
   else
     has_text ← Py.contains "text" (PDict c);
     if has_text : bool then
       text ← Py.getitem (PDict c) "text";
       mret (Answer text)
     else mret SolarAssistant.unexpected_format).
Proof.
  intros He Hc. unfold SolarAssistant.response_mapping.
  rewrite (contains_absent _ _ He). res_step.
  rewrite (contains_present _ _ _ Hc). res_step.
  rewrite (getitem_present _ _ _ Hc). by res_step.
Qed.

Lemma mapping_message_content w (d c m : gmap string pyval) rest v :
  d !! "error" = None ->
  d !! "choices" = Some (PList (PDict c :: rest)) ->
  c !! "message" = Some (PDict m) ->
  m !! "content" = Some v ->
  SolarAssistant.response_mapping w (PDict d) = Return (Answer v).
Proof.
  intros He Hc Hm Hv. rewrite (mapping_first_choice _ _ _ _ He Hc).
  rewrite (contains_present _ _ _ Hm). res_step.
  rewrite (getitem_present _ _ _ Hm). res_step.
  rewrite (contains_present _ _ _ Hv). res_step.
  rewrite (getitem_present _ _ _ Hv). by res_step.
Qed.

Lemma content_test_false (c : gmap string pyval) :
  no_message_content c ->
  py_and (Py.contains "message" (PDict c))
         (message ← Py.getitem (PDict c) "message";
          Py.contains "content" message) = Return false.
Proof.
  intros [Hm | (m & Hm & Hv)].
  - rewrite (contains_absent _ _ Hm). by res_step.
  - rewrite (contains_present _ _ _ Hm). res_step.
    rewrite (getitem_present _ _ _ Hm). res_step.
    by rewrite (contains_absent _ _ Hv).
Qed.

Lemma mapping_flat_text w (d c : gmap string pyval) rest v :
  d !! "error" = None ->
  d !! "choices" = Some (PList (PDict c :: rest)) ->
  no_message_content c ->
  c !! "text" = Some v ->
  SolarAssistant.response_mapping w (PDict d) = Return (Answer v).
Proof.
  intros He Hc Hm Hv. rewrite (mapping_first_choice _ _ _ _ He Hc).
  rewrite (content_test_false _ Hm). res_step.
  rewrite (contains_present _ _ _ Hv). res_step.
  rewrite (getitem_present _ _ _ Hv). by res_step.
Qed.

Lemma mapping_unrecognised w (d : gmap string pyval) :
  d !! "error" = None ->
  unrecognised d ->
  SolarAssistant.response_mapping w (PDict d) =
  Return SolarAssistant.unexpected_format.
Proof.
  intros He [Hc | [Hc | (c & rest & Hc & Hm & Ht)]].
  - unfold SolarAssistant.response_mapping.
    rewrite (contains_absent _ _ He). res_step.
    rewrite (contains_absent _ _ Hc). by res_step.
  - unfold SolarAssistant.response_mapping.
    rewrite (contains_absent _ _ He). res_step.
    rewrite (contains_present _ _ _ Hc). res_step.
    rewrite (getitem_present _ _ _ Hc). by res_step.
  - rewrite (mapping_first_choice _ _ _ _ He Hc).
    rewrite (content_test_false _ Hm). res_step.
    rewrite (contains_absent _ _ Ht). by res_step.
Qed.

(** ** Reading the shapes *)

Lemma has_error_key_false (d : gmap string pyval) :
  has_error_key (PDict d) = false -> d !! "error" = None.
Proof.
  unfold has_error_key. intros H%bool_decide_eq_false.
  by apply eq_None_not_Some.
Qed.

Lemma choices_of_cons body choice rest :
  choices_of body = choice :: rest ->
  exists d : gmap string pyval,
    body = PDict d /\ d !! "choices" = Some (PList (choice :: rest)).
Proof.
  destruct body as [| | | | | |d]; try discriminate. cbn.
  destruct (d !! "choices") as [[]|] eqn:E; try discriminate.
  intros ->. by exists d.
Qed.

Lemma message_content_some choice v :
  message_content choice = Some v ->
  exists c m : gmap string pyval,
    choice = PDict c /\ c !! "message" = Some (PDict m) /\ m !! "content" = Some v.
Proof.
  destruct choice as [| | | | | |c]; try discriminate. cbn.
  destruct (c !! "message") as [[| | | | | |m]|] eqn:E; try discriminate.
  intros H. by exists c, m.
Qed.

Lemma sample_logging_returns reply : logging_returns (Sample.world_of reply).
Proof. intros r e. discriminate. Qed.

Lemma sample_upstream_body body q lvl :
  upstream_body (Sample.replying body) Sample.self q lvl body.
Proof. eexists. split; reflexivity. Qed.

(** ** The reply carries a message with content *)

(** C1, as the code has it: when the logging calls return and the parsed
    body has no top-level error member, a FIRST completion choice that
    exposes a message with content makes [complete] return [Answer] with
    that content. *)
Theorem answer_from_first_choice_message w self q lvl body choice rest v :
  logging_returns w ->
  upstream_body w self q lvl body ->
  has_error_key body = false ->
  choices_of body = choice :: rest ->
  message_content choice = Some v ->
  complete w self q lvl = Return (Answer v).
Proof.
  intros Hlog Hup He (d & -> & Hc)%choices_of_cons
    (c & m & -> & Hm & Hv)%message_content_some.
  apply has_error_key_false in He.
  rewrite (complete_of_body _ _ _ _ _ Hlog Hup).
  by rewrite (mapping_message_content _ _ _ _ _ _ He Hc Hm Hv).
Qed.

Lemma answer_from_first_choice_message_witness :
  complete (Sample.replying Reply.message_x) Sample.self "q" "general"
  = Return (Answer (PStr "X")).
Proof.
  eapply (answer_from_first_choice_message _ _ _ _ Reply.message_x).
  - apply sample_logging_returns.
  - apply sample_upstream_body.
  - reflexivity.
  - reflexivity.
  - reflexivity.
Defined.

(** C1, as stated, fails: a body without error member whose second choice
    exposes a message with content ["X"], behind a first choice that exposes
    nothing, is answered with the format failure and not with [Answer "X"]. *)
Lemma later_choice_is_not_answered :
  has_error_key Reply.later_choice = false
  /\ message_content <$> choices_of Reply.later_choice = [None; Some (PStr "X")]
  /\ complete (Sample.replying Reply.later_choice) Sample.self "q" "general"
     = Return (Failure "Error: Unexpected response format from API").
Proof. repeat split; vm_compute; reflexivity. Qed.

(** ** The reply carries an error member *)

(** C3, as the code has it: when the logging calls return and the parsed
    body is an object whose ["error"] member is itself an object, [complete]
    returns [Failure] with ["API error: "] followed by the text of that
    object's message, or by ["Unknown error"] when it has none; whatever
    else the body holds (choices included) plays no part. *)
Theorem api_error_from_error_object w self q lvl (d err : gmap string pyval) :
  logging_returns w ->
  upstream_body w self q lvl (PDict d) ->
  d !! "error" = Some (PDict err) ->
  complete w self q lvl =
    Return (Failure ("API error: " ++
      format_value w (from_option id (PStr "Unknown error") (err !! "message"))))
  /\ (forall s, err !! "message" = Some (PStr s) ->
        complete w self q lvl = Return (Failure ("API error: " ++ s)))
  /\ (err !! "message" = None ->
        complete w self q lvl = Return (Failure "API error: Unknown error")).
Proof.
  intros Hlog Hup He.
  rewrite (complete_of_body _ _ _ _ _ Hlog Hup), (mapping_error _ _ _ He).
  split; [done|]. split.
  - by intros s ->.
  - by intros ->.
Qed.

Lemma api_error_from_error_object_witness :
  complete (Sample.replying Reply.error_bad_key) Sample.self "q" "general"
  = Return (Failure "API error: bad key").
Proof.
  refine (proj1 (proj2 (api_error_from_error_object
            (Sample.replying Reply.error_bad_key) Sample.self "q" "general"
            (list_to_map [("error", Sample.dict [("message", PStr "bad key")])])
            (list_to_map [("message", PStr "bad key")])
            (sample_logging_returns _) (sample_upstream_body _ _ _) _))
          "bad key" _); reflexivity.
Defined.

(** C3, as stated, fails: a body whose top-level error member is a string
    is not answered with ["API error: ..."]. *)
Lemma error_string_is_not_api_error :
  has_error_key Reply.error_string = true
  /\ complete (Sample.replying Reply.error_string) Sample.self "q" "general"
     = Return (Failure "An error occurred: 'str' object has no attribute 'get'").
Proof. split; vm_compute; reflexivity. Qed.

(** ** The reply carries a flat text *)

(** C4, as the code has it: when the logging calls return and the parsed
    body has no top-level error member, a first completion choice that has
    a text member, and whose message member is missing or is an object
    without content, makes [complete] return [Answer] with that text. *)
Theorem answer_from_first_choice_text w self q lvl body
    (c : gmap string pyval) rest v :
  logging_returns w ->
  upstream_body w self q lvl body ->
  has_error_key body = false ->
  choices_of body = PDict c :: rest ->
  no_message_content c ->
  flat_text (PDict c) = Some v ->
  complete w self q lvl = Return (Answer v).
Proof.
  intros Hlog Hup He (d & -> & Hc)%choices_of_cons Hm Hv.
  apply has_error_key_false in He.
  rewrite (complete_of_body _ _ _ _ _ Hlog Hup).
  by rewrite (mapping_flat_text _ _ _ _ _ He Hc Hm Hv).
Qed.

Lemma answer_from_first_choice_text_witness :
  complete (Sample.replying Reply.text_y) Sample.self "q" "general"
  = Return (Answer (PStr "Y")).
Proof.
  eapply (answer_from_first_choice_text _ _ _ _ Reply.text_y
            (list_to_map [("text", PStr "Y")])).
  - apply sample_logging_returns.
  - apply sample_upstream_body.
  - reflexivity.
  - reflexivity.
  - left. reflexivity.
  - reflexivity.
Defined.

(** C4, as stated, fails: in a body without error member whose only choice
    has the text ["Y"] and a null message (hence no message with content),
    the test of the message raises, and the text is not returned. *)
Lemma null_message_hides_text :
  has_error_key Reply.null_message = false
  /\ message_content <$> choices_of Reply.null_message = [None]
  /\ flat_text <$> choices_of Reply.null_message = [Some (PStr "Y")]
  /\ complete (Sample.replying Reply.null_message) Sample.self "q" "general"
     = Return (Failure
         "An error occurred: argument of type 'NoneType' is not iterable").
Proof. repeat split; vm_compute; reflexivity. Qed.

(** ** The reply matches no recognised shape *)

(** C5, as the code has it: when the logging calls return and the parsed
    body is an object without error member that has no choices member, or an
    empty list of choices, or a first choice that is an object with no text
    member and with a message member that is missing or an object without
    content, [complete] returns the format failure.  The empty object and
    the empty list of choices are among these. *)
Theorem unexpected_format_for_unrecognised w self q lvl
    (d : gmap string pyval) :
  logging_returns w ->
  upstream_body w self q lvl (PDict d) ->
  has_error_key (PDict d) = false ->
  unrecognised d ->
  complete w self q lvl =
    Return (Failure "Error: Unexpected response format from API").
Proof.
  intros Hlog Hup He%has_error_key_false Hun.
  rewrite (complete_of_body _ _ _ _ _ Hlog Hup).
  by rewrite (mapping_unrecognised _ _ He Hun).
Qed.

Lemma unexpected_format_for_unrecognised_witness :
  complete (Sample.replying Reply.empty_object) Sample.self "q" "general"
  = Return (Failure "Error: Unexpected response format from API").
Proof.
  eapply (unexpected_format_for_unrecognised _ _ _ _ ∅).
  - apply sample_logging_returns.
  - apply (sample_upstream_body Reply.empty_object).
  - reflexivity.
  - left. reflexivity.
Defined.

(** C5, as stated, fails: a body without error member whose choices member
    is null holds no choice of any shape, yet it is not answered with the
    format failure: taking the length of null raises. *)
Lemma null_choices_is_not_format_failure :
  has_error_key Reply.null_choices = false
  /\ choices_of Reply.null_choices = []
  /\ complete (Sample.replying Reply.null_choices) Sample.self "q" "general"
     = Return (Failure
         "An error occurred: object of type 'NoneType' has no len()").
Proof. repeat split; vm_compute; reflexivity. Qed.

(** ** Every run returns one outcome *)

Lemma res_bind_inv {A B : Type} (m : res A) (f : A -> res B) (y : B) :
  m ≫= f = Return y -> exists a, m = Return a /\ f a = Return y.
Proof. destruct m as [a|e]; [by exists a | discriminate]. Qed.

Lemma getitem_inv v k x :
  Py.getitem v k = Return x ->
  exists d : gmap string pyval, v = PDict d /\ d !! k = Some x.
Proof.
  destruct v as [| | | | | |d]; try discriminate. cbn.
  destruct (d !! k) as [y|] eqn:E; [|discriminate].
  intros [= ->]. by exists d.
Qed.

Lemma getitem0_dict_inv v (c : gmap string pyval) :
  Py.getitem0 v = Return (PDict c) -> exists rest, v = PList (PDict c :: rest).
Proof.
  destruct v as [| | | |[|a s]|[|x l]|d]; try discriminate.
  intros [= ->]. by exists l.
Qed.

(** An [Answer] only ever comes out of the first choice of an object without
    error member: it is that choice's message content, or its text. *)
Lemma mapping_answer_inv w body v :
  SolarAssistant.response_mapping w body = Return (Answer v) ->
  exists (c : gmap string pyval) rest,
    has_error_key body = false
    /\ choices_of body = PDict c :: rest
    /\ (message_content (PDict c) = Some v \/ flat_text (PDict c) = Some v).
Proof.
  unfold SolarAssistant.response_mapping.
  intros ([] & He & H)%res_bind_inv.
  { apply res_bind_inv in H as (? & _ & (? & _ & [=])%res_bind_inv). }
  apply res_bind_inv in H as ([] & _ & H); [|discriminate].
  apply res_bind_inv in H as (choices & (d & -> & Hc)%getitem_inv & H).
  apply res_bind_inv in H as (choice & H0 & H).
  assert (has_error_key (PDict d) = false) as Hd by (cbn in *; congruence).
  assert (forall c : gmap string pyval, choice = PDict c ->
            exists rest, choices_of (PDict d) = PDict c :: rest) as Hfirst.
  { intros c ->. apply getitem0_dict_inv in H0 as (rest & ->).
    exists rest. cbn. by rewrite Hc. }
  apply res_bind_inv in H as ([] & _ & H).
  - apply res_bind_inv in H as (message & (c & -> & Hm)%getitem_inv & H).
    apply res_bind_inv in H as (content & (m & -> & Hv)%getitem_inv & [= ->]).
    destruct (Hfirst c eq_refl) as (rest & Hrest).
    exists c, rest. split; [done|]. split; [done|]. left. cbn. by rewrite Hm.
  - apply res_bind_inv in H as ([] & _ & H); [|discriminate].
    apply res_bind_inv in H as (text & (c & -> & Ht)%getitem_inv & [= ->]).
    destruct (Hfirst c eq_refl) as (rest & Hrest).
    exists c, rest. split; [done|]. split; [done|]. by right.
Qed.

(** ** The wrapper around the completion *)

Lemma get_response_unfold w self q lvl :
  SolarAssistant.get_response w self q lvl [] =
  match event_loop w with
  | Some e => (Raise e, [])
  | None =>
      match logging w (selector_record w) with
      | LogRaises e => (Raise e, [])
      | Logged | Dropped =>
          match loop_run w with
          | Some e =>
              (Raise (default e (loop_close w)), logged w (selector_record w))
          | None =>
              match loop_close w with
              | Some e =>
                  (Raise e,
                   (logged w (selector_record w) ++ run_trace w self q lvl)%list)
              | None =>
                  (complete w self q lvl,
                   (logged w (selector_record w) ++ run_trace w self q lvl)%list)
              end
          end
      end
  end.
Proof.
  unfold SolarAssistant.get_response, asyncio_new_event_loop,
    asyncio_run_until_complete, asyncio_loop_close, complete, run_trace.
  destruct (event_loop w) as [e|]; [done|].
  rewrite bind_eq. unfold log, logged, try_finally.
  destruct (logging w (selector_record w)) as [| |e]; [| |done].
  - cbn [emit]. destruct (loop_run w) as [e|].
    + by destruct (loop_close w).
    + rewrite (framed_async_get_response w self q lvl _).
      by destruct (loop_close w).
  - cbn [mret M_ret]. destruct (loop_run w) as [e|].
    + by destruct (loop_close w).
    + rewrite (framed_async_get_response w self q lvl _).
      by destruct (loop_close w).
Qed.

(** When the event loop can be created, runs and can be closed, and the
    logging call of its creation returns, a call returns what the completion
    returns. *)
Lemma call_eq_complete w self q lvl :
  event_loop_works w ->
  loop_logging_returns w ->
  call w self q lvl = complete w self q lvl.
Proof.
  intros (Hl & Hr & Hc) Hlog. unfold call.
  rewrite get_response_unfold, Hl, Hr, Hc.
  destruct (logging w (selector_record w)) as [| |e] eqn:E; [done|done|].
  destruct (Hlog _ E).
Qed.

(** When that logging call raises, the exception leaves the wrapper. *)
Lemma call_loop_logging_raises w self q lvl e :
  event_loop w = None ->
  logging w (selector_record w) = LogRaises e ->
  call w self q lvl = Raise e.
Proof.
  intros Hl He. unfold call. by rewrite get_response_unfold, Hl, He.
Qed.

Lemma logging_returns_loop w : logging_returns w -> loop_logging_returns w.
Proof. intros H e. apply H. Qed.

Lemma logging_returns_handler w : logging_returns w -> handler_logging_returns w.
Proof. intros H e e'. apply H. Qed.

(** C2, as the code has it: for every query, every expertise level and every
    behaviour of the upstream service, and whatever the logging calls of
    the [try] block do, a call of [get_response] returns normally with one
    outcome, provided the event loop can be created, runs the coroutine and
    can be closed, and the two logging calls made outside the [try] block
    return: the one of [asyncio] when the loop is created, and the one of
    the [except] clause.
    An [Answer] is, as it came, the message content or the text of the first
    choice of a parsed body without error member, which need not be a
    string. *)
Theorem get_response_returns_one_outcome w self q lvl :
  event_loop_works w ->
  loop_logging_returns w ->
  handler_logging_returns w ->
  exists o,
    call w self q lvl = Return o
    /\ forall v,
         o = Answer v ->
         exists body (c : gmap string pyval) rest,
           upstream_body w self q lvl body
           /\ has_error_key body = false
           /\ choices_of body = PDict c :: rest
           /\ (message_content (PDict c) = Some v
               \/ flat_text (PDict c) = Some v).
Proof.
  intros Hloop Hsel Hlog. rewrite (call_eq_complete _ _ _ _ Hloop Hsel).
  destruct (complete_cases w self q lvl Hlog)
    as [(body & o & Hup & Hmap & ->) | (e & ->)].
  - exists o. split; [done|]. intros v ->.
    destruct (mapping_answer_inv _ _ _ Hmap) as (c & rest & He & Hc & Hv).
    by exists body, c, rest.
  - eexists. split; [done|]. intros v [=].
Qed.

Lemma get_response_returns_one_outcome_witness :
  exists o,
    call (Sample.replying Reply.text_y) Sample.self "q" "general" = Return o
    /\ forall v,
         o = Answer v ->
         exists body (c : gmap string pyval) rest,
           upstream_body (Sample.replying Reply.text_y) Sample.self
                         "q" "general" body
           /\ has_error_key body = false
           /\ choices_of body = PDict c :: rest
           /\ (message_content (PDict c) = Some v
               \/ flat_text (PDict c) = Some v).
Proof.
  apply (get_response_returns_one_outcome (Sample.replying Reply.text_y)).
  - repeat split.
  - intros e. discriminate.
  - intros e e'. discriminate.
Defined.

(** C2, as stated, fails: when the content of the first choice's message is
    null, the call returns [None], which is not a string. *)
Lemma null_content_returns_none :
  call (Sample.replying Reply.null_content) Sample.self "q" "general"
  = Return (Answer PNone)
  /\ returned_value (Answer PNone) = PNone
  /\ is_str (returned_value (Answer PNone)) = false.
Proof. repeat split; vm_compute; reflexivity. Qed.

(** ** The transport fails *)

(** C6, as the code has it: when the transport fails with [e] (the request
    raises: connection error, timeout; or the body of the reply does not
    parse), the event loop can be created, runs the coroutine and can be
    closed, and the logging calls return, a call of [get_response] returns
    normally with the [Failure]
    whose message is ["An error occurred: "] followed by [str(e)]; it
    begins with ["An error occurred:"]. *)
Theorem transport_failure_is_caught w self q lvl e :
  event_loop_works w ->
  logging_returns w ->
  upstream_fails w self q lvl e ->
  exists msg,
    call w self q lvl = Return (Failure msg)
    /\ msg = "An error occurred: " ++ str_exn w e
    /\ String.prefix "An error occurred:" msg = true.
Proof.
  intros Hloop Hlog Hfail.
  exists ("An error occurred: " ++ str_exn w e). split; [|done].
  rewrite (call_eq_complete _ _ _ _ Hloop (logging_returns_loop _ Hlog)).
  by apply complete_of_failure.
Qed.

Lemma transport_failure_is_caught_witness :
  exists msg,
    call (Sample.world_of (Raise (Raised "ConnectTimeout" "timed out")))
         Sample.self "q" "general" = Return (Failure msg)
    /\ msg = "An error occurred: timed out"
    /\ String.prefix "An error occurred:" msg = true.
Proof.
  apply (transport_failure_is_caught
           (Sample.world_of (Raise (Raised "ConnectTimeout" "timed out")))
           Sample.self "q" "general" (Raised "ConnectTimeout" "timed out")).
  - repeat split.
  - apply sample_logging_returns.
  - left. reflexivity.
Defined.

(** C6, as stated, fails: the call of [logging.exception] in the [except]
    clause is protected by nothing.  When the request times out and that
    call raises, the call of [get_response] returns no [Failure]: the
    exception of the logging call leaves it. *)
Lemma raising_handler_lets_exception_escape :
  upstream_fails
    (with_logging (error_raises (Raised "RuntimeError" "log handler failed"))
       (Sample.world_of (Raise (Raised "ReadTimeout" "timed out"))))
    Sample.self "q" "general" (Raised "ReadTimeout" "timed out")
  /\ call
       (with_logging (error_raises (Raised "RuntimeError" "log handler failed"))
          (Sample.world_of (Raise (Raised "ReadTimeout" "timed out"))))
       Sample.self "q" "general"
     = Raise (Raised "RuntimeError" "log handler failed").
Proof. split; [left|]; vm_compute; reflexivity. Qed.

(** ** The constructor and the credential *)

Lemma init_without_credential w t :
  SolarAssistant.truthy (SolarAssistant.getenv w "OPENROUTER_API_KEY") = false ->
  SolarAssistant.__init__ w t =
  (Raise (ValueError "OpenRouter API key not found in environment variables"), t).
Proof. intros H. unfold SolarAssistant.__init__. by rewrite H. Qed.

Lemma ui_init_eq w t :
  SolarAssistantUI.__init__ w t =
  match SolarAssistant.__init__ w t with
  | (Return a, t') => (Return (SolarAssistantUI.Self a), t')
  | (Raise e, t') => (Raise e, t')
  end.
Proof. reflexivity. Qed.

Lemma main_without_credential w t :
  SolarAssistant.truthy (SolarAssistant.getenv w "OPENROUTER_API_KEY") = false ->
  main w t =
  (Raise (ValueError "OpenRouter API key not found in environment variables"),
   (t ++ [Stdout "Starting Solar Industry AI Assistant..."])%list).
Proof.
  intros H. unfold main. rewrite bind_eq. unfold print, emit.
  by rewrite bind_eq, ui_init_eq, init_without_credential.
Qed.

(** An assistant that was built holds the credential of the environment,
    and that credential is not empty. *)
Lemma init_returns_credential w t self t' :
  SolarAssistant.__init__ w t = (Return self, t') ->
  exists k, SolarAssistant.getenv w "OPENROUTER_API_KEY" = Some k
            /\ k <> "" /\ SolarAssistant.api_key self = Some k.
Proof.
  unfold SolarAssistant.__init__.
  destruct (SolarAssistant.getenv w _) as [k|] eqn:E; cbn; [|discriminate].
  case_bool_decide as Hk; cbn; [discriminate|].
  destruct (basic_config w); [discriminate|].
  intros [= <- <-]. by exists k.
Qed.

(** C7: when the credential variable is absent, the constructor raises the
    [ValueError] and yields no assistant; the constructor of the interface
    raises with it, and [main] stops there, having printed its first line
    only: nothing is launched and no request is sent. *)
Theorem missing_credential_fails_construction w t :
  SolarAssistant.getenv w "OPENROUTER_API_KEY" = None ->
  SolarAssistant.__init__ w t =
    (Raise (ValueError "OpenRouter API key not found in environment variables"), t)
  /\ (forall self t', SolarAssistant.__init__ w t <> (Return self, t'))
  /\ SolarAssistantUI.__init__ w t =
       (Raise (ValueError "OpenRouter API key not found in environment variables"), t)
  /\ main w t =
       (Raise (ValueError "OpenRouter API key not found in environment variables"),
        (t ++ [Stdout "Starting Solar Industry AI Assistant..."])%list).
Proof.
  intros H.
  assert (SolarAssistant.truthy
            (SolarAssistant.getenv w "OPENROUTER_API_KEY") = false) as Hf
    by (by rewrite H).
  split; [by apply init_without_credential|]. split; [|split].
  - intros self t'. by rewrite init_without_credential.
  - by rewrite ui_init_eq, init_without_credential.
  - by apply main_without_credential.
Qed.

Lemma missing_credential_fails_construction_witness :
  SolarAssistant.__init__ (with_environ ∅ (Sample.replying PNone)) [] =
    (Raise (ValueError "OpenRouter API key not found in environment variables"), []).
Proof.
  apply (missing_credential_fails_construction
           (with_environ ∅ (Sample.replying PNone)) []).
  reflexivity.
Defined.

(** C10: when the credential variable is set to the empty string, the
    constructor raises the same [ValueError] as when it is absent, and
    yields no assistant. *)
Theorem empty_credential_fails_construction w t :
  SolarAssistant.getenv w "OPENROUTER_API_KEY" = Some "" ->
  SolarAssistant.__init__ w t =
    (Raise (ValueError "OpenRouter API key not found in environment variables"), t)
  /\ (forall self t', SolarAssistant.__init__ w t <> (Return self, t'))
  /\ (forall w', SolarAssistant.getenv w' "OPENROUTER_API_KEY" = None ->
        SolarAssistant.__init__ w t = SolarAssistant.__init__ w' t).
Proof.
  intros H.
  assert (SolarAssistant.truthy
            (SolarAssistant.getenv w "OPENROUTER_API_KEY") = false) as Hf
    by (by rewrite H).
  split; [by apply init_without_credential|]. split.
  - intros self t'. by rewrite init_without_credential.
  - intros w' H'. rewrite !init_without_credential; [done| |done].
    by rewrite H'.
Qed.

Lemma empty_credential_fails_construction_witness :
  SolarAssistant.__init__
    (with_environ {[ "OPENROUTER_API_KEY" := "" ]} (Sample.replying PNone)) [] =
    (Raise (ValueError "OpenRouter API key not found in environment variables"), []).
Proof.
  apply (empty_credential_fails_construction
           (with_environ {[ "OPENROUTER_API_KEY" := "" ]} (Sample.replying PNone)) []).
  reflexivity.
Defined.

(** ** The request *)

(** C8: for every query and every expertise level, the body of the request
    is an object with exactly the members model, messages, temperature and
    max_tokens: the fixed model identifier; two messages, the system message
    with the constant instruction and the user message whose content is
    ["User expertise level: <level>\nQuery: <query>"]; temperature 0.7;
    max_tokens 500.  The expertise level is no member of the body and no
    header, and a run sends no other request than the one with this body. *)
Theorem request_body_is_fixed_but_for_the_prompt w self q lvl :
  (exists fields sys usr : gmap string pyval,
      SolarAssistant.request_data q lvl = PDict fields
      /\ dom fields = ({[ "model"; "messages"; "temperature"; "max_tokens" ]} : gset string)
      /\ fields !! "model" = Some (PStr "mistralai/mistral-7b-instruct")
      /\ fields !! "messages" = Some (PList [PDict sys; PDict usr])
      /\ fields !! "temperature" = Some (PFloat 0.7)
      /\ fields !! "max_tokens" = Some (PInt 500)
      /\ dom sys = ({[ "role"; "content" ]} : gset string)
      /\ sys !! "role" = Some (PStr "system")
      /\ sys !! "content" = Some (PStr SolarAssistant._generate_system_prompt)
      /\ dom usr = ({[ "role"; "content" ]} : gset string)
      /\ usr !! "role" = Some (PStr "user")
      /\ usr !! "content" =
           Some (PStr ("User expertise level: " ++ lvl ++ newline
                       ++ "Query: " ++ q)))
  /\ dom (SolarAssistant.request_headers self)
     = ({[ "Authorization"; "Content-Type"; "HTTP-Referer" ]} : gset string)
  /\ (posts (run_trace w self q lvl) = []
      \/ posts (run_trace w self q lvl) =
         [(SolarAssistant.api_base self ++ "/chat/completions",
           SolarAssistant.request_headers self,
           SolarAssistant.request_data q lvl, 30.0%float)]).
Proof.
  split; [|split; [|apply posts_of_run]].
  - do 3 eexists. split; [reflexivity|].
    repeat split; try reflexivity.
    all: rewrite !dom_list_to_map_L; set_solver.
  - unfold SolarAssistant.request_headers.
    rewrite !dom_list_to_map_L. set_solver.
Qed.

(** ** Logging and the outcome *)

(** When the logging calls return, the outcome is a function of the upstream
    behaviour and of the interpreter's texts alone. *)
Lemma complete_quiet w self q lvl :
  logging_returns w ->
  complete w self q lvl = outcome_of w (upstream w self q lvl).
Proof.
  intros Hlog. unfold outcome_of.
  destruct (upstream w self q lvl) as [r|e] eqn:Hu.
  - destruct (json r) as [body|e] eqn:Hj.
    + rewrite (complete_of_body w self q lvl body Hlog); [|by exists r].
      cbn. by rewrite Hj.
    + rewrite (complete_of_failure w self q lvl e Hlog); [|right; by exists r].
      cbn. by rewrite Hj.
  - by rewrite (complete_of_failure w self q lvl e Hlog); [|left].
Qed.

Lemma with_logging_returns l w :
  (forall r e, l r <> LogRaises e) -> logging_returns (with_logging l w).
Proof. intros H r e. apply H. Qed.

(** C9, as the code has it: for every input and every upstream behaviour,
    with an event loop that can be created, runs the coroutine and can be
    closed, compare a call whose
    logging calls all return with a call that differs from it only in its
    logging module.  If the logging calls of the second return as well,
    whether they write their lines or lose them to failures the logging
    library absorbs, the outcome is the same.  A logging call that raises
    is not isolated.  Raised for the record of the event loop's creation,
    outside the [try] block, the exception leaves [get_response].  Raised
    inside the [try] block, it is caught like any other error: the outcome
    is the same or the [Failure] that describes that exception, as long as
    the logging call of the [except] clause returns. *)
Theorem logging_failures_and_the_outcome w l1 l2 self q lvl :
  event_loop_works w ->
  (forall r e, l1 r <> LogRaises e) ->
  ((forall r e, l2 r <> LogRaises e) ->
     call (with_logging l2 w) self q lvl = call (with_logging l1 w) self q lvl)
  /\ (forall e,
        l2 (selector_record w) = LogRaises e ->
        call (with_logging l2 w) self q lvl = Raise e)
  /\ ((forall e, l2 (selector_record w) <> LogRaises e) ->
      (forall e e', l2 (error_record e) <> LogRaises e') ->
      call (with_logging l2 w) self q lvl = call (with_logging l1 w) self q lvl
      \/ exists r e,
           record_level r <> ERROR
           /\ l2 r = LogRaises e
           /\ call (with_logging l2 w) self q lvl
              = Return (Failure ("An error occurred: " ++ str_exn w e))).
Proof.
  intros Hloop H1.
  assert (forall l, event_loop_works (with_logging l w)) as Hloops by done.
  assert (call (with_logging l1 w) self q lvl =
          outcome_of w (upstream w self q lvl)) as Hc1.
  { rewrite call_eq_complete; [|done|intros e; apply H1].
    by rewrite complete_quiet by by apply with_logging_returns. }
  rewrite Hc1. split; [|split].
  - intros H2. rewrite call_eq_complete; [|done|intros e; apply H2].
    by rewrite complete_quiet by by apply with_logging_returns.
  - intros e He. apply call_loop_logging_raises; [apply Hloop|exact He].
  - intros Hsel H2. rewrite call_eq_complete; [|done|exact Hsel].
    destruct (complete_or_logging_failure (with_logging l2 w) self q lvl)
      as [H | (r & e & Hr & He & H)]; [exact H2|by left|].
    right. by exists r, e.
Qed.

Lemma logging_failures_and_the_outcome_witness :
  call (with_logging (fun _ => Dropped) (Sample.replying Reply.message_x))
       Sample.self "q" "general"
  = call (with_logging (fun _ => Logged) (Sample.replying Reply.message_x))
         Sample.self "q" "general".
Proof.
  refine (proj1 (logging_failures_and_the_outcome
                   (Sample.replying Reply.message_x)
                   (fun _ => Logged) (fun _ => Dropped)
                   Sample.self "q" "general" _ _) _).
  - repeat split.
  - intros r e. discriminate.
  - intros r e. discriminate.
Defined.

(** C9, as stated, fails: with the same input and the same upstream reply,
    the call whose logging calls succeed returns [Answer "X"]; the call
    whose first debug logging call raises returns a [Failure]; and the call
    for which every record of level DEBUG raises, the one of the event
    loop's creation included, returns nothing: the exception leaves it. *)
Lemma raising_logger_changes_outcome :
  call (Sample.replying Reply.message_x) Sample.self "q" "general"
  = Return (Answer (PStr "X"))
  /\ call (with_logging (sending_raises (Raised "RuntimeError" "log handler failed"))
                        (Sample.replying Reply.message_x))
          Sample.self "q" "general"
     = Return (Failure "An error occurred: log handler failed")
  /\ call (with_logging (debug_raises (Raised "RuntimeError" "log handler failed"))
                        (Sample.replying Reply.message_x))
          Sample.self "q" "general"
     = Raise (Raised "RuntimeError" "log handler failed").
Proof. repeat split; vm_compute; reflexivity. Qed.

(** The value returned does not tell the two variants apart: an upstream
    text equal to an error string is returned as the same Python value. *)
Remark returned_value_forgets_variant s :
  returned_value (Answer (PStr s)) = returned_value (Failure s).
Proof. reflexivity. Qed.

(** When the logging call of the [except] clause raises, the exception
    leaves the function. *)
Example handler_logging_raises :
  complete (with_logging (fun _ => LogRaises (Raised "RuntimeError" "log handler failed"))
                         (Sample.replying Reply.message_x))
           Sample.self "q" "general"
  = Raise (Raised "RuntimeError" "log handler failed").
Proof. vm_compute. reflexivity. Qed.

(** ** Evaluation on concrete replies *)

Example substring_inside : Py.substring_of "error" "an error here" = true.
Proof. reflexivity. Qed.

Example substring_absent : Py.substring_of "error" "erro r" = false.
Proof. reflexivity. Qed.

(** The mocked replies of the specification's test list. *)

Example mock_message_content :
  complete (Sample.replying
              (Sample.dict [("choices", PList [
                 Sample.dict [("message", Sample.dict [("content", PStr "X")])]])]))
           Sample.self "q" "general"
  = Return (Answer (PStr "X")).
Proof. vm_compute. reflexivity. Qed.

Example mock_flat_text :
  complete (Sample.replying
              (Sample.dict [("choices", PList [Sample.dict [("text", PStr "Y")]])]))
           Sample.self "q" "general"
  = Return (Answer (PStr "Y")).
Proof. vm_compute. reflexivity. Qed.

Example mock_error :
  complete (Sample.replying
              (Sample.dict [("error", Sample.dict [("message", PStr "bad key")])]))
           Sample.self "q" "general"
  = Return (Failure "API error: bad key").
Proof. vm_compute. reflexivity. Qed.

Example mock_empty_object :
  complete (Sample.replying (Sample.dict [])) Sample.self "q" "general"
  = Return (Failure "Error: Unexpected response format from API").
Proof. vm_compute. reflexivity. Qed.

Example mock_empty_choices :
  complete (Sample.replying (Sample.dict [("choices", PList [])]))
           Sample.self "q" "general"
  = Return (Failure "Error: Unexpected response format from API").
Proof. vm_compute. reflexivity. Qed.

Example mock_timeout :
  complete (Sample.world_of (Raise (Raised "ReadTimeout" "timed out")))
           Sample.self "q" "general"
  = Return (Failure "An error occurred: timed out").
Proof. vm_compute. reflexivity. Qed.

Example mock_malformed_body :
  complete (Sample.world_of
              (Return (Response 502 "<html>" (Raise (Raised "JSONDecodeError"
                 "Expecting value: line 1 column 1 (char 0)")))))
           Sample.self "q" "general"
  = Return (Failure "An error occurred: Expecting value: line 1 column 1 (char 0)").
Proof. vm_compute. reflexivity. Qed.

Example sample_constructor :
  SolarAssistant.__init__ (Sample.replying PNone) [] = (Return Sample.self, []).
Proof. vm_compute. reflexivity. Qed.

(** An error member wins over choices in the same body. *)
Example mock_error_with_choices :
  complete (Sample.replying
              (Sample.dict [("error", Sample.dict [("message", PStr "bad key")]);
                            ("choices", PList [Sample.dict [("text", PStr "Y")]])]))
           Sample.self "q" "general"
  = Return (Failure "API error: bad key").
Proof. vm_compute. reflexivity. Qed.

Example mock_error_without_message :
  complete (Sample.replying (Sample.dict [("error", Sample.dict [])]))
           Sample.self "q" "general"
  = Return (Failure "API error: Unknown error").
Proof. vm_compute. reflexivity. Qed.

(** A message that is not a string is rendered by [str]. *)
Example mock_error_with_code :
  complete (Sample.replying
              (Sample.dict [("error", Sample.dict [("message", PInt 429)])]))
           Sample.self "q" "general"
  = Return (Failure "API error: 429").
Proof. vm_compute. reflexivity. Qed.

(** Bodies that are not objects. *)
Example mock_null_body :
  complete (Sample.replying PNone) Sample.self "q" "general"
  = Return (Failure
      "An error occurred: argument of type 'NoneType' is not iterable").
Proof. vm_compute. reflexivity. Qed.

Example mock_list_body :
  complete (Sample.replying (PList [])) Sample.self "q" "general"
  = Return (Failure "Error: Unexpected response format from API").
Proof. vm_compute. reflexivity. Qed.

Example mock_string_body :
  complete (Sample.replying (PStr "internal error")) Sample.self "q" "general"
  = Return (Failure
      "An error occurred: string indices must be integers, not 'str'").
Proof. vm_compute. reflexivity. Qed.

(** Choices that are a string: its first character is the choice. *)
Example mock_string_choices :
  complete (Sample.replying (Sample.dict [("choices", PStr "text")]))
           Sample.self "q" "general"
  = Return (Failure "Error: Unexpected response format from API").
Proof. vm_compute. reflexivity. Qed.

(** The trace of a call that was answered: the line of the event loop,
    then the debug lines of the source and the line of [httpx] around the
    one request. *)
Example sample_trace_shape :
  (fun ev => match ev with
             | Log r => record_message r
             | Post url _ _ _ => url
             | Stdout line => line
             | Launch => ""
             end) <$> call_trace (Sample.replying Reply.text_y) Sample.self "q" "general"
  = ["Using selector: EpollSelector";
     "Sending request with data: ";
     "https://openrouter.ai/api/v1/chat/completions";
     "HTTP Request: POST https://openrouter.ai/api/v1/chat/completions HTTP/1.1 200";
     "Response status code: 200";
     "Raw response: "].
Proof. vm_compute. reflexivity. Qed.

(** * Further properties of the code *)

(** ** What can leave the function *)

(** An exception leaves the coroutine [_async_get_response] only out of its
    [except] clause: it is the exception raised by the call of
    [logging.exception] made there. *)
Lemma complete_raise_inv w self q lvl e :
  complete w self q lvl = Raise e ->
  exists e0, logging w (error_record e0) = LogRaises e.
Proof.
  unfold complete. intros H.
  assert (forall e0 t, (handler_result w e0 t).1 = Raise e ->
            exists e1, logging w (error_record e1) = LogRaises e) as Hh.
  { intros e0 t H0.
    destruct (handler_result_cases w e0 t)
      as [(_ & Heq) | [(_ & Heq) | (e' & He' & Heq)]];
      rewrite Heq in H0; try discriminate.
    injection H0 as ->. by exists e0. }
  destruct (run_cases w self q lvl)
    as [(e0 & _ & Hrun) | (_ & pre & _ & _ & [(body & o & _ & _ & Hrun) | (e0 & Hrun)])];
    rewrite Hrun in H.
  - by apply (Hh e0 []).
  - discriminate.
  - by apply (Hh e0 pre).
Qed.

(** X2: an exception leaves [get_response] from five places only, none of
    them inside the [try] block of the coroutine: the creation of the event
    loop, the logging call [asyncio] makes then, the loop refusing to run
    the coroutine, the call of [logging.exception] in the [except] clause,
    and the closing of the loop in the [finally] clause.  Whatever is
    raised inside the [try] block (by the request, the parsing, the
    mapping, or a logging call of the source or of [httpx]) is caught. *)
Theorem only_handler_logging_escapes w self q lvl e :
  call w self q lvl = Raise e ->
  event_loop w = Some e
  \/ logging w (selector_record w) = LogRaises e
  \/ loop_run w = Some e
  \/ loop_close w = Some e
  \/ exists e0, logging w (error_record e0) = LogRaises e.
Proof.
  unfold call. rewrite get_response_unfold. intros H.
  destruct (event_loop w) as [e1|].
  { left. cbn in H. congruence. }
  destruct (logging w (selector_record w)) as [| |e1] eqn:Hsel.
  3: { right; left. cbn in H. congruence. }
  all: destruct (loop_run w) as [e1|]; destruct (loop_close w) as [e2|];
    cbn in H.
  all: try (right; right; right; left; congruence).
  all: try (right; right; left; congruence).
  all: right; right; right; right; by apply (complete_raise_inv w self q lvl).
Qed.

Lemma only_handler_logging_escapes_witness :
  event_loop
    (with_logging (error_raises (Raised "RuntimeError" "log handler failed"))
       (Sample.world_of (Raise (Raised "ReadTimeout" "timed out"))))
  = Some (Raised "RuntimeError" "log handler failed")
  \/ logging
       (with_logging (error_raises (Raised "RuntimeError" "log handler failed"))
       (Sample.world_of (Raise (Raised "ReadTimeout" "timed out"))))
       (selector_record
          (with_logging (error_raises (Raised "RuntimeError" "log handler failed"))
       (Sample.world_of (Raise (Raised "ReadTimeout" "timed out")))))
     = LogRaises (Raised "RuntimeError" "log handler failed")
  \/ loop_run
       (with_logging (error_raises (Raised "RuntimeError" "log handler failed"))
       (Sample.world_of (Raise (Raised "ReadTimeout" "timed out"))))
     = Some (Raised "RuntimeError" "log handler failed")
  \/ loop_close
       (with_logging (error_raises (Raised "RuntimeError" "log handler failed"))
       (Sample.world_of (Raise (Raised "ReadTimeout" "timed out"))))
     = Some (Raised "RuntimeError" "log handler failed")
  \/ exists e0,
       logging
         (with_logging (error_raises (Raised "RuntimeError" "log handler failed"))
       (Sample.world_of (Raise (Raised "ReadTimeout" "timed out"))))
         (error_record e0)
       = LogRaises (Raised "RuntimeError" "log handler failed").
Proof.
  apply (only_handler_logging_escapes
           (with_logging (error_raises (Raised "RuntimeError" "log handler failed"))
       (Sample.world_of (Raise (Raised "ReadTimeout" "timed out"))))
           Sample.self "q" "general"
           (Raised "RuntimeError" "log handler failed")).
  vm_compute. reflexivity.
Defined.

(** ** The error record and the outcome *)

(** X3: a record of level ERROR in the log of a run is the record of the
    [except] clause, with the handled exception attached, and the run then
    returned the [Failure] that describes that very exception. *)
Theorem error_record_matches_outcome w self q lvl r :
  r ∈ logs (run_trace w self q lvl) ->
  record_level r = ERROR ->
  exists e,
    r = error_record e
    /\ complete w self q lvl =
       Return (Failure ("An error occurred: " ++ str_exn w e)).
Proof.
  unfold run_trace, complete. intros Hr Hlvl.
  assert (forall e0 pre,
            Forall quiet pre ->
            r ∈ logs (handler_result w e0 pre).2 ->
            r = error_record e0
            /\ (handler_result w e0 pre).1 =
               Return (Failure ("An error occurred: " ++ str_exn w e0))) as Hh.
  { intros e0 pre Hq H0.
    destruct (handler_result_cases w e0 pre)
      as [(_ & Heq) | [(_ & Heq) | (e' & He' & Heq)]];
      rewrite Heq in H0 |- *; cbn [fst snd] in *.
    - rewrite logs_app in H0. apply elem_of_app in H0 as [H0 | H0].
      + apply (quiet_logs_debug _ _ Hq) in H0. congruence.
      + cbn in H0. apply list_elem_of_singleton in H0. by split.
    - apply (quiet_logs_debug _ _ Hq) in H0. congruence.
    - apply (quiet_logs_debug _ _ Hq) in H0. congruence. }
  destruct (run_cases w self q lvl)
    as [(e0 & _ & Hrun) | (_ & pre & Hq & _ & [(body & o & _ & _ & Hrun) | (e0 & Hrun)])];
    rewrite Hrun in Hr |- *.
  - exists e0. by apply Hh.
  - apply (quiet_logs_debug _ _ Hq) in Hr. congruence.
  - exists e0. by apply Hh.
Qed.

Lemma error_record_matches_outcome_witness :
  exists e,
    error_record (Raised "ReadTimeout" "timed out") = error_record e
    /\ complete (Sample.world_of (Raise (Raised "ReadTimeout" "timed out")))
                Sample.self "q" "general"
       = Return (Failure ("An error occurred: "
           ++ str_exn (Sample.world_of (Raise (Raised "ReadTimeout" "timed out"))) e)).
Proof.
  apply (error_record_matches_outcome
           (Sample.world_of (Raise (Raised "ReadTimeout" "timed out")))
           Sample.self "q" "general").
  - vm_compute. apply list_elem_of_In. right. left. reflexivity.
  - reflexivity.
Defined.

(** ** One request, no retry *)

(** X4: a run sends exactly one request when its first logging call does
    not raise, whatever the upstream service and the later logging calls
    do (a failed request is not repeated), and no request when that call
    raises. *)
Theorem one_request_per_run w self q lvl :
  ((forall e, logging w (sending_record w q lvl) <> LogRaises e) ->
     posts (run_trace w self q lvl) = [request_of self q lvl])
  /\ (forall e, logging w (sending_record w q lvl) = LogRaises e ->
        posts (run_trace w self q lvl) = []).
Proof.
  unfold run_trace.
  assert (forall e0 t, posts (handler_result w e0 t).2 = posts t) as Hh.
  { intros e0 t.
    destruct (handler_result_cases w e0 t)
      as [(_ & ->) | [(_ & ->) | (e' & _ & ->)]]; cbn [snd]; [|done..].
    apply posts_snoc_log. }
  destruct (run_cases w self q lvl)
    as [(e0 & He0 & Hrun) | (Hne & pre & _ & Hp & [(body & o & _ & _ & Hrun) | (e0 & Hrun)])];
    rewrite Hrun; split.
  - intros H. destruct (H _ He0).
  - intros _ _. by rewrite Hh.
  - done.
  - intros e He. destruct (Hne _ He).
  - intros _. by rewrite Hh.
  - intros e He. destruct (Hne _ He).
Qed.

Lemma one_request_per_run_witness :
  posts (run_trace (Sample.world_of (Raise (Raised "ConnectError" "refused")))
                   Sample.self "q" "general")
  = [request_of Sample.self "q" "general"].
Proof.
  apply (one_request_per_run
           (Sample.world_of (Raise (Raised "ConnectError" "refused")))
           Sample.self "q" "general").
  intros e. discriminate.
Defined.

(** ** The failures a run can return *)

Lemma get_inv v k dflt x :
  Py.get v k dflt = Return x ->
  exists d : gmap string pyval, v = PDict d /\ x = from_option id dflt (d !! k).
Proof.
  destruct v as [| | | | | |d]; try discriminate.
  intros [= <-]. by exists d.
Qed.

(** A [Failure] out of the mapping is the format failure, or the API error
    of an error object of the body. *)
Lemma mapping_failure_inv w body msg :
  SolarAssistant.response_mapping w body = Return (Failure msg) ->
  msg = "Error: Unexpected response format from API"
  \/ exists d err : gmap string pyval,
       body = PDict d
       /\ d !! "error" = Some (PDict err)
       /\ msg = "API error: " ++
                format_value w (from_option id (PStr "Unknown error")
                                            (err !! "message")).
Proof.
  unfold SolarAssistant.response_mapping.
  intros ([] & He & H)%res_bind_inv.
  - right.
    apply res_bind_inv in H as (error & (d & -> & Herr)%getitem_inv & H).
    apply res_bind_inv in H as (error_msg & (err & -> & ->)%get_inv & [= <-]).
    by exists d, err.
  - left.
    apply res_bind_inv in H as ([] & _ & H); [|by injection H as <-].
    apply res_bind_inv in H as (choices & _ & H).
    apply res_bind_inv in H as (choice & _ & H).
    apply res_bind_inv in H as ([] & _ & H).
    + apply res_bind_inv in H as (? & _ & (? & _ & [=])%res_bind_inv).
    + apply res_bind_inv in H as ([] & _ & H); [|by injection H as <-].
      apply res_bind_inv in H as (? & _ & [=]).
Qed.

Lemma prefix_app (s x : string) : String.prefix s (s ++ x) = true.
Proof.
  induction s as [|a s IH].
  - by destruct x.
  - change (String a s ++ x) with (String a (s ++ x)).
    change (String.prefix (String a s) (String a (s ++ x)))
      with (if Ascii.ascii_dec a a then String.prefix s (s ++ x) else false).
    destruct (Ascii.ascii_dec a a) as [_|Hne]; [exact IH|].
    by destruct Hne.
Qed.

(** X5: every [Failure] a run returns is of one of three forms: it begins
    with ["API error: "], or it is the format failure, or it begins with
    ["An error occurred: "]. *)
Theorem failures_have_three_forms w self q lvl msg :
  complete w self q lvl = Return (Failure msg) ->
  String.prefix "API error: " msg = true
  \/ msg = "Error: Unexpected response format from API"
  \/ String.prefix "An error occurred: " msg = true.
Proof.
  intros [(body & _ & Hmap) | (e & [= ->])]%run_returns_cases.
  - apply mapping_failure_inv in Hmap as [-> | (d & err & _ & _ & ->)].
    + right. by left.
    + left. apply prefix_app.
  - right. right. apply prefix_app.
Qed.

Lemma failures_have_three_forms_witness :
  String.prefix "API error: " "API error: bad key" = true
  \/ "API error: bad key" = "Error: Unexpected response format from API"
  \/ String.prefix "An error occurred: " "API error: bad key" = true.
Proof.
  apply (failures_have_three_forms (Sample.replying Reply.error_bad_key)
           Sample.self "q" "general").
  vm_compute. reflexivity.
Defined.

(** X6: a returned [Failure] that begins with ["API error: "] always comes
    from a parsed body that is an object whose error member is an object,
    and carries the text of that object's message (or ["Unknown error"]). *)
Theorem api_error_comes_from_error_object w self q lvl msg :
  complete w self q lvl = Return (Failure msg) ->
  String.prefix "API error: " msg = true ->
  exists d err : gmap string pyval,
    upstream_body w self q lvl (PDict d)
    /\ d !! "error" = Some (PDict err)
    /\ msg = "API error: " ++
             format_value w (from_option id (PStr "Unknown error")
                                         (err !! "message")).
Proof.
  intros [(body & Hup & Hmap) | (e & [= ->])]%run_returns_cases Hpre.
  - apply mapping_failure_inv in Hmap as [-> | (d & err & -> & Herr & ->)].
    + cbv in Hpre. discriminate.
    + by exists d, err.
  - cbn in Hpre. discriminate.
Qed.

Lemma api_error_comes_from_error_object_witness :
  exists d err : gmap string pyval,
    upstream_body (Sample.replying Reply.error_bad_key) Sample.self
                  "q" "general" (PDict d)
    /\ d !! "error" = Some (PDict err)
    /\ "API error: bad key" = "API error: " ++
         format_value (Sample.replying Reply.error_bad_key)
           (from_option id (PStr "Unknown error") (err !! "message")).
Proof.
  apply (api_error_comes_from_error_object
           (Sample.replying Reply.error_bad_key) Sample.self "q" "general").
  - vm_compute. reflexivity.
  - reflexivity.
Defined.

(** ** Bodies that follow the schema, and bodies that are no objects *)

Lemma mapping_of_schema w body :
  follows_schema body ->
  exists o, SolarAssistant.response_mapping w body = Return o.
Proof.
  intros (d & -> & [(err & He) | (He & Hc)]).
  { eexists. by apply mapping_error. }
  destruct Hc as [Hc | [Hc | (c & rest & Hc & Hm)]].
  - exists SolarAssistant.unexpected_format.
    apply mapping_unrecognised; [done|by left].
  - exists SolarAssistant.unexpected_format.
    apply mapping_unrecognised; [done|right; by left].
  - rewrite (mapping_first_choice _ _ _ _ He Hc).
    assert (exists o,
      (has_text ← Py.contains "text" (PDict c);
       if has_text : bool then
         text ← Py.getitem (PDict c) "text"; mret (Answer text)
       else mret SolarAssistant.unexpected_format) = Return o) as Htext.
    { destruct (c !! "text") as [t|] eqn:Ht.
      - rewrite (contains_present _ _ _ Ht). res_step.
        rewrite (getitem_present _ _ _ Ht). by eexists.
      - rewrite (contains_absent _ _ Ht). by eexists. }
    destruct Hm as [Hm | (m & Hm)].
    + rewrite (content_test_false c) by by left. res_step. exact Htext.
    + destruct (m !! "content") as [v|] eqn:Hv.
      * rewrite (contains_present _ _ _ Hm). res_step.
        rewrite (getitem_present _ _ _ Hm). res_step.
        rewrite (contains_present _ _ _ Hv). res_step.
        rewrite (getitem_present _ _ _ Hv). by eexists.
      * rewrite (content_test_false c) by (right; by exists m).
        res_step. exact Htext.
Qed.

(** X7: when the logging calls return and the parsed body follows the
    schema, the mapping does not raise: the run returns what the mapping
    returns, and never a failure of the [except] clause. *)
Theorem schema_bodies_never_reach_the_handler w self q lvl body :
  logging_returns w ->
  upstream_body w self q lvl body ->
  follows_schema body ->
  exists o,
    SolarAssistant.response_mapping w body = Return o
    /\ complete w self q lvl = Return o
    /\ forall msg, o = Failure msg ->
         String.prefix "An error occurred: " msg = false.
Proof.
  intros Hlog Hup Hs.
  destruct (mapping_of_schema w body Hs) as (o & Hmap).
  exists o. split; [done|]. split.
  - by rewrite (complete_of_body _ _ _ _ _ Hlog Hup), Hmap.
  - intros msg ->.
    apply mapping_failure_inv in Hmap as [-> | (d & err & _ & _ & ->)];
      reflexivity.
Qed.

Lemma schema_bodies_never_reach_the_handler_witness :
  exists o,
    SolarAssistant.response_mapping (Sample.replying Reply.empty_object)
                                    Reply.empty_object = Return o
    /\ complete (Sample.replying Reply.empty_object) Sample.self "q" "general"
       = Return o
    /\ forall msg, o = Failure msg ->
         String.prefix "An error occurred: " msg = false.
Proof.
  apply (schema_bodies_never_reach_the_handler
           (Sample.replying Reply.empty_object) Sample.self "q" "general"
           Reply.empty_object).
  - apply sample_logging_returns.
  - apply sample_upstream_body.
  - exists ∅. split; [reflexivity|]. right. split; [reflexivity|].
    left. reflexivity.
Defined.

(** X8: when the logging calls return and the parsed body is a scalar
    (null, a boolean, a number), the first membership test raises and the
    run returns the failure of the [except] clause for that exception. *)
Theorem scalar_body_fails_membership w self q lvl body :
  logging_returns w ->
  upstream_body w self q lvl body ->
  is_scalar body = true ->
  complete w self q lvl =
  Return (Failure ("An error occurred: " ++ exc_text w (NotIterable body))).
Proof.
  intros Hlog Hup Hs.
  rewrite (complete_of_body _ _ _ _ _ Hlog Hup).
  by destruct body.
Qed.

Lemma scalar_body_fails_membership_witness :
  complete (Sample.replying (PInt 429)) Sample.self "q" "general" =
  Return (Failure ("An error occurred: "
    ++ exc_text (Sample.replying (PInt 429)) (NotIterable (PInt 429)))).
Proof.
  apply (scalar_body_fails_membership (Sample.replying (PInt 429))
           Sample.self "q" "general" (PInt 429)).
  - apply sample_logging_returns.
  - apply sample_upstream_body.
  - reflexivity.
Defined.

(** ** The status code and the raw text *)

Lemma with_post_logging_returns p w :
  logging_returns w -> logging_returns (with_post p w).
Proof. intros H r e. apply H. Qed.

(** X9: when the logging calls return, the outcome depends on the reply
    only through its parsed body: a reply with any other status code and
    any other raw text, but the same result of parsing, gives the same
    outcome.  The status code is never consulted. *)
Theorem status_code_is_never_consulted w self q lvl r status raw :
  logging_returns w ->
  upstream w self q lvl = Return r ->
  complete (with_post (fun _ _ _ _ => Return (Response status raw (json r))) w)
           self q lvl
  = complete w self q lvl.
Proof.
  intros Hlog Hup.
  rewrite (complete_quiet w) by done.
  rewrite complete_quiet by by apply with_post_logging_returns.
  by rewrite Hup.
Qed.

Lemma status_code_is_never_consulted_witness :
  complete (with_post (fun _ _ _ _ =>
              Return (Response 500 "Internal Server Error" (Return Reply.message_x)))
              (Sample.replying Reply.message_x))
           Sample.self "q" "general"
  = complete (Sample.replying Reply.message_x) Sample.self "q" "general".
Proof.
  apply (status_code_is_never_consulted (Sample.replying Reply.message_x)
           Sample.self "q" "general"
           (Response 200 "" (Return Reply.message_x)) 500 "Internal Server Error").
  - apply sample_logging_returns.
  - reflexivity.
Defined.

(** ** The constructor *)

Lemma init_returns_inv w t self t' :
  SolarAssistant.__init__ w t = (Return self, t') ->
  exists k,
    SolarAssistant.getenv w "OPENROUTER_API_KEY" = Some k
    /\ k <> ""
    /\ basic_config w = None
    /\ self = SolarAssistant.Self (Some k) "https://openrouter.ai/api/v1"
    /\ t' = t.
Proof.
  unfold SolarAssistant.__init__.
  destruct (SolarAssistant.getenv w _) as [k|] eqn:E; cbn; [|discriminate].
  case_bool_decide as Hk; cbn; [discriminate|].
  destruct (basic_config w); [discriminate|].
  intros [= <- <-]. by exists k.
Qed.

(** X12: the constructor returns an assistant exactly when the credential
    variable holds a non-empty string and the logging configuration does
    not raise; the assistant then holds that very string (unstripped) and
    the fixed base address, and the constructor has written nothing. *)
Theorem constructor_succeeds_iff w t self t' :
  SolarAssistant.__init__ w t = (Return self, t')
  <-> exists k,
        SolarAssistant.getenv w "OPENROUTER_API_KEY" = Some k
        /\ k <> ""
        /\ basic_config w = None
        /\ self = SolarAssistant.Self (Some k) "https://openrouter.ai/api/v1"
        /\ t' = t.
Proof.
  split; [apply init_returns_inv|].
  unfold SolarAssistant.__init__.
  intros (k & -> & Hk & -> & -> & ->). cbn.
  by rewrite bool_decide_eq_false_2.
Qed.

(** X13: every request sent by an assistant that the constructor built goes
    to the chat-completions path of the fixed base address, with a timeout
    of 30 seconds, and carries the credential of the environment in its
    Authorization header, besides the two fixed headers. *)
Theorem built_assistant_sends_the_credential w t self t' q lvl
    url (headers : gmap string string) body timeout :
  SolarAssistant.__init__ w t = (Return self, t') ->
  (url, headers, body, timeout) ∈ posts (run_trace w self q lvl) ->
  exists k,
    SolarAssistant.getenv w "OPENROUTER_API_KEY" = Some k
    /\ url = "https://openrouter.ai/api/v1/chat/completions"
    /\ headers !! "Authorization" = Some ("Bearer " ++ k)
    /\ headers !! "Content-Type" = Some "application/json"
    /\ headers !! "HTTP-Referer" = Some "https://localhost:7860"
    /\ dom headers = ({[ "Authorization"; "Content-Type"; "HTTP-Referer" ]} : gset string)
    /\ body = SolarAssistant.request_data q lvl
    /\ timeout = 30.0%float.
Proof.
  intros (k & Hk & _ & _ & -> & _)%init_returns_inv Hin.
  exists k. split; [done|].
  destruct (posts_of_run w (SolarAssistant.Self (Some k) "https://openrouter.ai/api/v1") q lvl)
    as [H | H]; rewrite H in Hin.
  - by apply elem_of_nil in Hin.
  - apply list_elem_of_singleton in Hin. injection Hin as -> -> -> ->.
    repeat split; reflexivity.
Qed.

Lemma built_assistant_sends_the_credential_witness :
  exists k,
    SolarAssistant.getenv (Sample.replying Reply.text_y) "OPENROUTER_API_KEY" = Some k
    /\ "https://openrouter.ai/api/v1/chat/completions"
       = "https://openrouter.ai/api/v1/chat/completions"
    /\ SolarAssistant.request_headers Sample.self !! "Authorization"
       = Some ("Bearer " ++ k)
    /\ SolarAssistant.request_headers Sample.self !! "Content-Type"
       = Some "application/json"
    /\ SolarAssistant.request_headers Sample.self !! "HTTP-Referer"
       = Some "https://localhost:7860"
    /\ dom (SolarAssistant.request_headers Sample.self)
       = ({[ "Authorization"; "Content-Type"; "HTTP-Referer" ]} : gset string)
    /\ SolarAssistant.request_data "q" "general"
       = SolarAssistant.request_data "q" "general"
    /\ 30.0%float = 30.0%float.
Proof.
  apply (built_assistant_sends_the_credential
           (Sample.replying Reply.text_y) [] Sample.self [] "q" "general").
  - reflexivity.
  - vm_compute. apply list_elem_of_In. left. reflexivity.
Defined.

(** ** The user message *)

Lemma user_content_request q lvl :
  user_content (SolarAssistant.request_data q lvl) =
  Some (PStr ("User expertise level: " ++ lvl ++ newline ++ "Query: " ++ q)).
Proof. reflexivity. Qed.

Lemma string_app_cons c (a x : string) : String c a ++ x = String c (a ++ x).
Proof. reflexivity. Qed.

Lemma string_app_assoc (x y z : string) : (x ++ y) ++ z = x ++ (y ++ z).
Proof.
  induction x as [|c x IH]; [done|].
  by rewrite !string_app_cons, IH.
Qed.

Lemma no_line_break_cons c s :
  no_line_break (String c s) = true ->
  c <> Ascii.ascii_of_nat 10 /\ no_line_break s = true.
Proof.
  cbn [no_line_break]. intros [Hc Hs]%andb_true_iff. split; [|done].
  intros ->. by rewrite Ascii.eqb_refl in Hc.
Qed.

(** Two texts without line break, each followed by a line break, split a
    string in one way only. *)
Lemma line_break_splits_once (a a' b b' : string) :
  no_line_break a = true ->
  no_line_break a' = true ->
  a ++ newline ++ b = a' ++ newline ++ b' ->
  a = a' /\ b = b'.
Proof.
  revert a'. induction a as [|c a IH]; intros [|c' a'] Ha Ha' H.
  - split; [done|]. by injection H.
  - apply no_line_break_cons in Ha' as [Hc _].
    rewrite string_app_cons in H. injection H as H _. by destruct Hc.
  - apply no_line_break_cons in Ha as [Hc _].
    rewrite string_app_cons in H. injection H as H _. by destruct Hc.
  - apply no_line_break_cons in Ha as [_ Ha].
    apply no_line_break_cons in Ha' as [_ Ha'].
    rewrite !string_app_cons in H. injection H as -> H.
    destruct (IH a' Ha Ha' H) as [-> ->]. done.
Qed.

(** X15: for expertise levels without a line break (as the three levels of
    the interface are), the request body determines both inputs: two calls
    that compose the same body were given the same query and the same
    level. *)
Theorem request_body_determines_inputs q q' lvl lvl' :
  no_line_break lvl = true ->
  no_line_break lvl' = true ->
  SolarAssistant.request_data q lvl = SolarAssistant.request_data q' lvl' ->
  lvl = lvl' /\ q = q'.
Proof.
  intros Hl Hl' H. apply (f_equal user_content) in H.
  rewrite !user_content_request in H. injection H as H.
  apply (String.app_inj "") in H.
  apply line_break_splits_once in H as [-> H]; [|done..].
  split; [done|]. by apply (String.app_inj "Query: ") in H.
Qed.

Lemma request_body_determines_inputs_witness :
  "general" = "general" /\ "q" = "q".
Proof.
  apply (request_body_determines_inputs "q" "q" "general" "general");
    reflexivity.
Defined.

(** X16: the level is not validated and the user message does not delimit
    its two parts: a level that holds a line break followed by ["Query: "]
    composes the same body as a plain level with a longer query. *)
Theorem level_with_line_break_aliases_query a b c :
  SolarAssistant.request_data c (a ++ newline ++ "Query: " ++ b)
  = SolarAssistant.request_data (b ++ newline ++ "Query: " ++ c) a.
Proof.
  unfold SolarAssistant.request_data.
  by rewrite !string_app_assoc.
Qed.

(** ** A body with an error member is never answered *)

Lemma upstream_body_unique w self q lvl b1 b2 :
  upstream_body w self q lvl b1 -> upstream_body w self q lvl b2 -> b1 = b2.
Proof. intros (r1 & H1 & J1) (r2 & H2 & J2). congruence. Qed.

(** X17: when the parsed body is an object with a top-level error member,
    of whatever type, a run that returns returns a [Failure]: the API error
    or, when the member is no object, the failure of the [except] clause.
    It never returns an [Answer], even when the body has choices as well. *)
Theorem error_member_is_never_answered w self q lvl body o :
  upstream_body w self q lvl body ->
  has_error_key body = true ->
  complete w self q lvl = Return o ->
  exists msg,
    o = Failure msg
    /\ (String.prefix "API error: " msg = true
        \/ String.prefix "An error occurred: " msg = true).
Proof.
  intros Hup He [(body' & Hup' & Hmap) | (e & ->)]%run_returns_cases.
  - rewrite <- (upstream_body_unique _ _ _ _ _ _ Hup Hup') in Hmap.
    destruct o as [v|msg].
    + apply mapping_answer_inv in Hmap as (c & rest & He' & _). congruence.
    + exists msg. split; [done|].
      destruct (mapping_failure_inv _ _ _ Hmap) as [-> | (d & err & _ & _ & ->)].
      * exfalso. destruct body as [| | | | | |d]; try discriminate.
        unfold has_error_key in He. apply bool_decide_eq_true in He as [x Hx].
        unfold SolarAssistant.response_mapping in Hmap.
        rewrite (contains_present _ _ _ Hx) in Hmap.
        cbn [mbind res_bind] in Hmap.
        rewrite (getitem_present _ _ _ Hx) in Hmap.
        cbn [mbind res_bind] in Hmap.
        destruct x; discriminate.
      * left. apply prefix_app.
  - eexists. split; [done|]. right. apply prefix_app.
Qed.

Lemma error_member_is_never_answered_witness :
  exists msg,
    Failure "An error occurred: 'NoneType' object has no attribute 'get'"
    = Failure msg
    /\ (String.prefix "API error: " msg = true
        \/ String.prefix "An error occurred: " msg = true).
Proof.
  apply (error_member_is_never_answered
           (Sample.replying Reply.null_error_with_choices)
           Sample.self "q" "general" Reply.null_error_with_choices).
  - apply sample_upstream_body.
  - reflexivity.
  - vm_compute. reflexivity.
Defined.

(** ** A body that is a string *)

Lemma prefix_inv (k s : string) :
  String.prefix k s = true -> exists b, s = k ++ b.
Proof.
  revert s. induction k as [|a k IH]; intros s H.
  - by exists s.
  - destruct s as [|c s]; [discriminate|].
    change (String.prefix (String a k) (String c s))
      with (if Ascii.ascii_dec a c then String.prefix k s else false) in H.
    destruct (Ascii.ascii_dec a c) as [->|]; [|discriminate].
    destruct (IH s H) as (b & ->). by exists b.
Qed.

Lemma substring_of_eq (k s : string) :
  Py.substring_of k s =
  String.prefix k s ||
  match s with
  | EmptyString => false
  | String _ rest => Py.substring_of k rest
  end.
Proof. by destruct s. Qed.

(** The substring test of the embedding is the occurrence of the needle. *)
Lemma substring_of_spec (k s : string) :
  Py.substring_of k s = true <-> occurs_in k s.
Proof.
  unfold occurs_in. split.
  - induction s as [|c s IH]; rewrite substring_of_eq.
    + rewrite orb_false_r. intros (b & ->)%prefix_inv. by exists "", b.
    + intros [(b & ->)%prefix_inv | H]%orb_true_iff.
      * by exists "", b.
      * destruct (IH H) as (a & b & ->). by exists (String c a), b.
  - intros (a & b & ->). induction a as [|c a IH].
    + rewrite substring_of_eq. change ("" ++ k ++ b) with (k ++ b).
      by rewrite prefix_app.
    + rewrite string_app_cons, substring_of_eq, IH. apply orb_true_r.
Qed.

(** X18: when the logging calls return and the parsed body is a JSON
    string, the membership tests are substring tests: a string in which
    ["error"] occurs, or else ["choices"], makes the subscript raise and
    the run returns the failure of the [except] clause; every other string
    gets the format failure. *)
Theorem string_body_is_searched_for_the_keys w self q lvl s :
  logging_returns w ->
  upstream_body w self q lvl (PStr s) ->
  (occurs_in "error" s ->
     complete w self q lvl =
     Return (Failure ("An error occurred: "
               ++ exc_text w (BadIndexType (PStr s) (PStr "error")))))
  /\ (~ occurs_in "error" s -> occurs_in "choices" s ->
        complete w self q lvl =
        Return (Failure ("An error occurred: "
                  ++ exc_text w (BadIndexType (PStr s) (PStr "choices")))))
  /\ (~ occurs_in "error" s -> ~ occurs_in "choices" s ->
        complete w self q lvl =
        Return (Failure "Error: Unexpected response format from API")).
Proof.
  intros Hlog Hup. rewrite (complete_of_body _ _ _ _ _ Hlog Hup).
  unfold SolarAssistant.response_mapping, Py.contains.
  destruct (Py.substring_of "error" s) eqn:He.
  { apply substring_of_spec in He. split; [done|].
    split; intros Hn; by destruct Hn. }
  assert (~ occurs_in "error" s) as Hne.
  { intros H%substring_of_spec. congruence. }
  split; [done|]. res_step.
  destruct (Py.substring_of "choices" s) eqn:Hc.
  - apply substring_of_spec in Hc. split; [done|]. intros _ Hn. by destruct Hn.
  - split; [|done]. intros _ H%substring_of_spec. congruence.
Qed.

Lemma string_body_is_searched_for_the_keys_witness :
  complete (Sample.replying (PStr "upstream error")) Sample.self "q" "general" =
  Return (Failure ("An error occurred: "
    ++ exc_text (Sample.replying (PStr "upstream error"))
         (BadIndexType (PStr "upstream error") (PStr "error")))).
Proof.
  refine (proj1 (string_body_is_searched_for_the_keys
                   (Sample.replying (PStr "upstream error")) Sample.self
                   "q" "general" "upstream error" _ _) _).
  - apply sample_logging_returns.
  - apply sample_upstream_body.
  - unfold occurs_in. exists "upstream ", "". reflexivity.
Defined.
